(** * alx-backend: FIFO cache and paginated access to a data set

    A shallow embedding of the Python sources

    - 0x01-caching/1-fifo_cache.py: module [FIFO];
    - 0x00-pagination/1-simple_pagination.py: module [SimplePagination];
    - 0x00-pagination/2-hypermedia_pagination.py: module
      [HypermediaPagination];
    - 2-hypermedia_pagination.py, with [index_range] of
      0x00-pagination/0-simple_helper_function.py: module [HelperPagination];
    - 0x00-pagination/3-hypermedia_del_pagination.py: module [DelPagination];
    - 0x01-caching/0-basic_cache.py: module [Basic];
    - 0x02-i18n/app.py ([get_user], [get_locale]): module [I18n].

    Python objects with mutable attributes are modelled by explicit state
    passing in a small state-and-exception monad; Python [int]s are [Z];
    [dict]s are stdpp's [gmap]; [list]s are [list]. The first part of the
    file is the model, the second part has the theorems, in one module of
    facts for each module of the model. *)

From Stdlib Require Import ZArith QArith Qround Lia.
From stdpp Require Import gmap strings list fin_maps.
From Equations Require Import Equations.

Local Open Scope Z_scope.

(** * The model *)

(** ** Python exceptions and the state-and-exception monad *)

Inductive exn : Set :=
| AssertionError
| IndexError
| KeyError
| TypeError
| ZeroDivisionError
| StopIteration.

Inductive result (A : Type) : Type :=
| Ok (a : A)
| Raise (e : exn).
Arguments Ok {A} a.
Arguments Raise {A} e.

(** A method of an object whose attributes are [S]: it runs on the current
    attributes, and gives the attributes after the call and either the value
    returned or the exception raised. *)
Definition M (S A : Type) : Type := S → S * result A.

Definition ret {S A} (a : A) : M S A := λ s, (s, Ok a).

Definition raise {S A} (e : exn) : M S A := λ s, (s, Raise e).

Definition bind {S A B} (c : M S A) (k : A → M S B) : M S B :=
  λ s, match c s with
       | (s', Ok a) => k a s'
       | (s', Raise e) => (s', Raise e)
       end.

Definition gets {S A} (f : S → A) : M S A := λ s, (s, Ok (f s)).

Definition modify {S} (f : S → S) : M S unit := λ s, (f s, Ok tt).

Notation "'let*' x ':=' c 'in' k" := (bind c (λ x, k))
  (at level 10, x name, c at level 100, k at level 200).

(** [for x in xs: body x] *)
Fixpoint for_each {S A} (xs : list A) (body : A → M S unit) : M S unit :=
  match xs with
  | [] => ret tt
  | x :: xs' => let* _ := body x in for_each xs' body
  end.

(** [[f x for x in xs]] where [f] is a method call *)
Fixpoint map_m {S A B} (f : A → M S B) (xs : list A) : M S (list B) :=
  match xs with
  | [] => ret []
  | x :: xs' => let* y := f x in let* ys := map_m f xs' in ret (y :: ys)
  end.

(** ** 0x01-caching/1-fifo_cache.py *)

Module FIFO.
Section fifo_cache.
Context {K V : Type} `{Countable K}.

(** [BaseCaching.MAX_ITEMS]: [base_caching.py] is not among the sources,
    the capacity is a parameter of the development. *)
Variable MAX_ITEMS : Z.

(** The attributes of a [FIFOCache] object, and what it has printed:
    [stdout] lists the keys of the lines [DISCARD: key], oldest first. *)
Record FIFOCache : Type := mkFIFOCache {
  cache_data : gmap K V;
  order : list K;
  stdout : list K
}.

(** Modelled from the spec: [BaseCaching.__init__] ([base_caching.py] is
    not among the sources) creates the empty dictionary [cache_data];
    [FIFOCache.__init__] then sets [self.order = []]. *)
Definition init : FIFOCache :=
  {| cache_data := ∅; order := []; stdout := [] |}.

(** [self.order[0]] *)
Definition order_0 : M FIFOCache K :=
  λ s, match order s with
       | [] => (s, Raise IndexError)
       | k :: _ => (s, Ok k)
       end.

(** [print("DISCARD: {}".format(k))] *)
Definition print_discard (k : K) : M FIFOCache unit :=
  modify (λ s, {| cache_data := cache_data s; order := order s;
                  stdout := stdout s ++ [k] |}).

(** [del self.cache_data[k]] *)
Definition del_cache_data (k : K) : M FIFOCache unit :=
  λ s, match cache_data s !! k with
       | None => (s, Raise KeyError)
       | Some _ =>
           ({| cache_data := delete k (cache_data s); order := order s;
               stdout := stdout s |}, Ok tt)
       end.

(** [del self.order[0]] *)
Definition del_order_0 : M FIFOCache unit :=
  λ s, match order s with
       | [] => (s, Raise IndexError)
       | _ :: rest =>
           ({| cache_data := cache_data s; order := rest;
               stdout := stdout s |}, Ok tt)
       end.

(** [self.order.append(k)] *)
Definition order_append (k : K) : M FIFOCache unit :=
  modify (λ s, {| cache_data := cache_data s; order := order s ++ [k];
                  stdout := stdout s |}).

(** [self.cache_data[k] = item] *)
Definition cache_data_set (k : K) (item : V) : M FIFOCache unit :=
  modify (λ s, {| cache_data := <[k := item]> (cache_data s);
                  order := order s; stdout := stdout s |}).

(** [FIFOCache.put]; Python's [None] is [None] here. *)
Definition put (key : option K) (item : option V) : M FIFOCache unit :=
  match key, item with
  | Some key, Some item =>
      let* length := gets (λ s, Z.of_nat (size (cache_data s))) in
      let* present := gets (λ s, bool_decide (is_Some (cache_data s !! key))) in
      let* _ :=
        if (MAX_ITEMS <=? length) && negb present then
          let* k := order_0 in
          let* _ := print_discard k in
          let* k := order_0 in
          let* _ := del_cache_data k in
          del_order_0
        else ret tt in
      let* _ := order_append key in
      cache_data_set key item
  | _, _ => ret tt
  end.

(** [FIFOCache.get] *)
Definition get (key : option K) : M FIFOCache (option V) :=
  match key with
  | Some key => gets (λ s, cache_data s !! key)
  | None => ret None
  end.

(** A client's calls on one cache object. A call that raises leaves the
    object as it was when the exception was raised. *)
Inductive call : Type :=
| Put (key : option K) (item : option V)
| Get (key : option K).

Definition exec (s : FIFOCache) (c : call) : FIFOCache :=
  match c with
  | Put key item => (put key item s).1
  | Get key => (get key s).1
  end.

Definition reachable (s : FIFOCache) : Prop :=
  ∃ calls : list call, foldl exec init calls = s.

(** [cache.put(k, v)] for each pair, in order, all with values that are
    not [None]. *)
Definition put_all (kvs : list (K * V)) : M FIFOCache unit :=
  for_each kvs (λ kv, put (Some kv.1) (Some kv.2)).

(** The last [n] elements of a list. *)
Definition lastn {A} (n : nat) (l : list A) : list A :=
  drop (length l - n)%nat l.

(** The object after the pairs [l], with distinct keys, were put into a
    fresh cache that had room for all of them. *)
Definition filled (l : list (K * V)) : FIFOCache :=
  {| cache_data := list_to_map l; order := l.*1; stdout := [] |}.

(** The invariant of [put] and [get]: every key of [cache_data] occurs in
    [order]. *)
Definition keys_in_order (s : FIFOCache) : Prop :=
  ∀ k, is_Some (cache_data s !! k) → k ∈ order s.

End fifo_cache.

Arguments FIFOCache K V {_ _}.

(** *** Concrete runs: keys are strings, values are integers *)

Local Open Scope string_scope.

(** A, B and C are inserted, A is overwritten, D is inserted. *)
Definition overwrite_run : list (string * Z) :=
  [("A", 1); ("B", 2); ("C", 3); ("A", 10); ("D", 4)].

(** A run on a cache of capacity 4 that overwrites the oldest key once and
    then keeps inserting new keys. *)
Definition stale_front_run : list (string * Z) :=
  [("A", 1); ("B", 2); ("C", 3); ("D", 4); ("A", 10);
   ("E", 5); ("F", 6); ("G", 7); ("H", 8); ("I", 9)].

(** Five distinct keys into a fresh cache of capacity 4. *)
Definition overflow_run : list (string * Z) :=
  [("A", 1); ("B", 2); ("C", 3); ("D", 4); ("E", 5)].

(** A state reached with calls of [get], a no-op [put] and an eviction. *)
Definition some_calls : list (@call string Z) :=
  [Put (Some "A") (Some 1); Get (Some "A"); Put None (Some 2);
   Put (Some "B") (Some 2); Put (Some "A") (Some 3); Put (Some "C") (Some 4)].

Local Close Scope string_scope.

End FIFO.

(** ** Python values and built-ins used by the pagination servers *)

(** What a caller may pass as [page] or [page_size]. *)
Inductive pyval : Type :=
| PyInt (z : Z)
| PyBool (b : bool)
| PyNone
| PyStr (s : string).

(** The integer a value is when [isinstance(v, int)] holds; [bool] is a
    subclass of [int]. *)
Definition as_int (v : pyval) : option Z :=
  match v with
  | PyInt z => Some z
  | PyBool b => Some (if b then 1 else 0)
  | PyNone | PyStr _ => None
  end.

(** [isinstance(v, int) and v > 0] *)
Definition positive_int (v : pyval) : bool :=
  match as_int v with
  | Some z => 0 <? z
  | None => false
  end.

(** [assert isinstance(v, int) and v > 0]; the value is then used as the
    integer it is. *)
Definition assert_isinstance_int_positive {S} (v : pyval) : M S Z :=
  match as_int v with
  | Some z => if 0 <? z then ret z else raise AssertionError
  | None => raise AssertionError
  end.

(** [assert type(v) is int and v > 0] *)
Definition assert_type_is_int_positive {S} (v : pyval) : M S Z :=
  match v with
  | PyInt z => if 0 <? z then ret z else raise AssertionError
  | _ => raise AssertionError
  end.

(** [l[start:stop]]: a negative bound counts from the end, and both bounds
    are clipped to the list. *)
Definition py_slice {A} (l : list A) (start stop : Z) : list A :=
  let n := Z.of_nat (length l) in
  let clip i := if i <? 0 then Z.max (i + n) 0 else Z.min i n in
  take (Z.to_nat (clip stop - clip start)) (drop (Z.to_nat (clip start)) l).

(** A row of the CSV file, as [csv.reader] yields it. *)
Definition row : Type := list string.

(** The operand of integer arithmetic a value is; other values make the
    operation raise [TypeError]. *)
Definition int_operand {S} (v : pyval) : M S Z :=
  match as_int v with
  | Some z => ret z
  | None => raise TypeError
  end.

(** [a // b] *)
Definition floordiv {S} (a b : Z) : M S Z :=
  if b =? 0 then raise ZeroDivisionError else ret (a / b).

(** [math.ceil(a / b)]. The quotient [a / b] of two integers is a float in
    Python; it is taken exactly here, as a rational number. *)
Definition ceil_truediv {S} (a b : Z) : M S Z :=
  if b =? 0 then raise ZeroDivisionError
  else ret (Qceiling (inject_Z a / inject_Z b)).

(** A small file: a header and five rows. *)
Definition five_rows : list row :=
  [["Year"; "Name"]; ["2016"; "Olivia"]; ["2016"; "Chloe"];
   ["2016"; "Sophia"]; ["2016"; "Emma"]; ["2016"; "Emily"]]%string.

(** ** 0x00-pagination/1-simple_pagination.py *)

Module SimplePagination.
Section server.
(** The rows of the file [Server.DATA_FILE], header first. *)
Variable DATA_FILE : list row.

Record Server : Type := mkServer { __dataset : option (list row) }.

(** [Server.__init__] *)
Definition init : Server := {| __dataset := None |}.

Definition index_range (page page_size : Z) : Z * Z :=
  let start_index := (page - 1) * page_size in
  let end_index := start_index + page_size in
  (start_index, end_index).

(** [Server.dataset]: [next(reader)] skips the header, and raises
    [StopIteration] on a file with no line at all. *)
Definition dataset : M Server (list row) :=
  let* cached := gets __dataset in
  match cached with
  | None =>
      match DATA_FILE with
      | [] => raise StopIteration
      | _ :: rows =>
          let* _ := modify (λ _, {| __dataset := Some rows |}) in
          ret rows
      end
  | Some rows => ret rows
  end.

(** [Server.get_page] *)
Definition get_page (page page_size : pyval) : M Server (list row) :=
  let* page := assert_isinstance_int_positive page in
  let* page_size := assert_isinstance_int_positive page_size in
  let* dataset := dataset in
  let '(start_index, end_index) := index_range page page_size in
  if Z.of_nat (length dataset) <=? start_index then ret []
  else ret (py_slice dataset start_index end_index).

(** [[server.get_page(p, page_size) for p in range(1, pages + 1)]] *)
Definition get_pages (pages : nat) (page_size : Z)
  : M Server (list (list row)) :=
  map_m (λ p, get_page (PyInt (Z.of_nat p)) (PyInt page_size)) (seq 1 pages).

End server.
End SimplePagination.

(** A file with a header and ten rows. *)
Definition ten_rows : list row :=
  [["Year"; "Name"]; ["2016"; "Olivia"]; ["2016"; "Chloe"];
   ["2016"; "Sophia"]; ["2016"; "Emma"]; ["2016"; "Emily"]; ["2016"; "Mia"];
   ["2016"; "Charlotte"]; ["2016"; "Sarah"]; ["2016"; "Isabella"];
   ["2016"; "Hannah"]]%string.

(** ** 0x00-pagination/2-hypermedia_pagination.py *)

Module HypermediaPagination.
Section server.
(** The rows of the file [Server.DATA_FILE], header first. *)
Variable DATA_FILE : list row.

Record Server : Type := mkServer { __dataset : option (list row) }.

(** [Server.__init__] *)
Definition init : Server := {| __dataset := None |}.

Definition index_range (page page_size : Z) : Z * Z :=
  let start_index := (page - 1) * page_size in
  let end_index := page * page_size in
  (start_index, end_index).

(** [Server.dataset]: all rows are read, [dataset[1:]] drops the header. *)
Definition dataset : M Server (list row) :=
  let* cached := gets __dataset in
  match cached with
  | None =>
      let dataset := DATA_FILE in
      let* _ := modify (λ _, {| __dataset := Some (drop 1 dataset) |}) in
      ret (drop 1 dataset)
  | Some rows => ret rows
  end.

(** [Server.get_page] *)
Definition get_page (page page_size : pyval) : M Server (list row) :=
  let* page := assert_isinstance_int_positive page in
  let* page_size := assert_isinstance_int_positive page_size in
  let '(start_index, end_index) := index_range page page_size in
  let* dataset := dataset in
  if Z.of_nat (length dataset) <=? start_index then ret []
  else ret (py_slice dataset start_index end_index).

(** The dictionary [get_hyper] returns. *)
Record HyperPage : Type := mkHyperPage {
  page_size : Z;
  page : pyval;
  data : list row;
  next_page : option Z;
  prev_page : option Z;
  total_pages : Z
}.

(** [Server.get_hyper] *)
Definition get_hyper (page page_size : pyval) : M Server HyperPage :=
  let* page_data := get_page page page_size in
  let* rows := dataset in
  let* size := int_operand page_size in
  let* total_pages := ceil_truediv (Z.of_nat (length rows)) size in
  let* number := int_operand page in
  let* rows := dataset in
  ret {| page_size := Z.of_nat (length page_data);
         page := page;
         data := page_data;
         next_page := if number * size <? Z.of_nat (length rows)
                      then Some (number + 1) else None;
         prev_page := if 1 <? number then Some (number - 1) else None;
         total_pages := total_pages |}.

End server.
End HypermediaPagination.

(** ** 2-hypermedia_pagination.py, with [index_range] of
    0x00-pagination/0-simple_helper_function.py *)

Module HelperPagination.
Section server.
(** The rows of the file [Server.DATA_FILE], header first. *)
Variable DATA_FILE : list row.

Record Server : Type := mkServer { __dataset : option (list row) }.

(** [Server.__init__] *)
Definition init : Server := {| __dataset := None |}.

(** [index_range]: [for i in range(page): start = end; end += page_size],
    from [start, end = 0, 0]. *)
Definition index_range (page page_size : Z) : Z * Z :=
  Nat.iter (Z.to_nat page)
           (λ '(start, end_), (end_, end_ + page_size))
           (0, 0).

(** [Server.dataset]: [next(reader)] skips the header, and raises
    [StopIteration] on a file with no line at all. *)
Definition dataset : M Server (list row) :=
  let* cached := gets __dataset in
  match cached with
  | None =>
      match DATA_FILE with
      | [] => raise StopIteration
      | _ :: dataset =>
          let* _ := modify (λ _, {| __dataset := Some dataset |}) in
          ret dataset
      end
  | Some rows => ret rows
  end.

(** [Server.assert_positive_integer_type] *)
Definition assert_positive_integer_type {S} (value : pyval) : M S Z :=
  assert_type_is_int_positive value.

(** [Server.get_page]; taking a slice never raises [IndexError]. *)
Definition get_page (page page_size : pyval) : M Server (list row) :=
  let* page := assert_positive_integer_type page in
  let* page_size := assert_positive_integer_type page_size in
  let* dataset := dataset in
  let '(start, end_) := index_range page page_size in
  ret (py_slice dataset start end_).

(** The dictionary [get_hyper] returns. *)
Record HyperPage : Type := mkHyperPage {
  page : pyval;
  page_size : Z;
  total_pages : Z;
  data : list row;
  prev_page : option Z;
  next_page : option Z
}.

(** [Server.get_hyper] *)
Definition get_hyper (page page_size : pyval) : M Server HyperPage :=
  let* rows := dataset in
  let* size := int_operand page_size in
  let* quotient := floordiv (Z.of_nat (length rows)) size in
  let total_pages := quotient + 1 in
  let* data := get_page page page_size in
  let* number := int_operand page in
  ret {| page := page;
         page_size := if size <=? Z.of_nat (length data) then size
                      else Z.of_nat (length data);
         total_pages := total_pages;
         data := data;
         prev_page := if 1 <? number then Some (number - 1) else None;
         next_page := if number + 1 <=? total_pages then Some (number + 1)
                      else None |}.

End server.
End HelperPagination.

(** ** 0x00-pagination/3-hypermedia_del_pagination.py *)

Module DelPagination.

(** The loop of [get_hyper_index]:
    [while len(data) < page_size and current_index < len(indexed_data)],
    with the values of [data] and [current_index] when it ends. Each turn
    increments [current_index], so the loop ends. *)
Equations? while_loop (indexed_data : gmap Z row) (page_size : Z)
  (data : list row) (current_index : Z) : list row * Z
  by wf (Z.to_nat (Z.of_nat (size indexed_data) - current_index)) lt :=
while_loop indexed_data page_size data current_index
  with decide (Z.of_nat (length data) < page_size
               ∧ current_index < Z.of_nat (size indexed_data)) := {
  | left _ =>
      let record := indexed_data !! current_index in
      while_loop indexed_data page_size
        (match record with
         | Some record => data ++ [record]
         | None => data
         end)
        (current_index + 1)
  | right _ => (data, current_index) }.
Proof. lia. Qed.

Section server.
(** The rows of the file [Server.DATA_FILE], header first. *)
Variable DATA_FILE : list row.

Record Server : Type := mkServer {
  __dataset : option (list row);
  __indexed_dataset : option (gmap Z row)
}.

(** [Server.__init__] *)
Definition init : Server :=
  {| __dataset := None; __indexed_dataset := None |}.

(** [Server.dataset]: all rows are read, [dataset[1:]] drops the header. *)
Definition dataset : M Server (list row) :=
  let* cached := gets __dataset in
  match cached with
  | None =>
      let dataset := DATA_FILE in
      let* _ := modify (λ s, {| __dataset := Some (drop 1 dataset);
                                __indexed_dataset := __indexed_dataset s |}) in
      ret (drop 1 dataset)
  | Some rows => ret rows
  end.

(** [{i: dataset[i] for i in range(len(dataset))}] *)
Definition index_rows (dataset : list row) : gmap Z row :=
  foldl (λ indexed i,
           match dataset !! i with
           | Some record => <[Z.of_nat i := record]> indexed
           | None => indexed
           end)
        ∅ (seq 0 (length dataset)).

(** [Server.indexed_dataset] *)
Definition indexed_dataset : M Server (gmap Z row) :=
  let* cached := gets __indexed_dataset in
  match cached with
  | None =>
      let* dataset := dataset in
      let indexed := index_rows dataset in
      let* _ := modify (λ s, {| __dataset := __dataset s;
                                __indexed_dataset := Some indexed |}) in
      ret indexed
  | Some indexed => ret indexed
  end.

(** The dictionary [get_hyper_index] returns. *)
Record HyperIndex : Type := mkHyperIndex {
  index : option Z;
  next_index : option Z;
  page_size : Z;
  data : list row
}.

(** [Server.get_hyper_index]; [index] is [None] when the caller leaves it
    out. *)
Definition get_hyper_index (index : option Z) (page_size : Z)
  : M Server HyperIndex :=
  let* indexed_data := indexed_dataset in
  let data := [] in
  let current_index := match index with Some i => i | None => 0 end in
  let '(data, current_index) :=
    while_loop indexed_data page_size data current_index in
  let next_index :=
    if current_index <? Z.of_nat (size indexed_data) then Some current_index
    else None in
  ret {| index := index;
         next_index := next_index;
         page_size := Z.of_nat (length data);
         data := data |}.

(** What a client does to delete records: [del] on the snapshot of the
    server, for each of the positions. *)
Definition delete_records (positions : list Z) (s : Server) : Server :=
  {| __dataset := __dataset s;
     __indexed_dataset :=
       (λ indexed, foldl (λ m i, delete i m) indexed positions)
       <$> __indexed_dataset s |}.

End server.

(** The number of records of a snapshot at positions [start] and later. *)
Definition live_from (indexed_data : gmap Z row) (start : Z) : nat :=
  size (filter (λ kv, start ≤ kv.1) indexed_data).

(** The records of a snapshot at the positions from [start] up to, and
    without, [stop], in order. *)
Definition live_window (indexed_data : gmap Z row) (start stop : Z)
  : list row :=
  omap (λ i, indexed_data !! i) (seqZ start (stop - start)).

(** A server that has taken its snapshot of ten rows, after a client has
    deleted the records at positions 2 and 5. *)
Definition gapped_server : Server :=
  delete_records [2; 5] (indexed_dataset ten_rows init).1.

Definition gapped_snapshot : gmap Z row :=
  default ∅ (__indexed_dataset gapped_server).

End DelPagination.

(** A file with a header and 1001 rows. *)
Definition long_file : list row :=
  ["Year"; "Name"]%string :: replicate 1001 ["2016"; "Olivia"]%string.

(** ** 0x01-caching/0-basic_cache.py *)

Module Basic.
Section basic_cache.
Context {K V : Type} `{Countable K}.

(** The attributes of a [BasicCache] object. *)
Record BasicCache : Type := mkBasicCache { cache_data : gmap K V }.

(** Modelled from the spec: [BaseCaching.__init__] ([base_caching.py] is
    not among the sources) creates the empty dictionary [cache_data]. *)
Definition init : BasicCache := {| cache_data := ∅ |}.

(** [BasicCache.put] *)
Definition put (key : option K) (item : option V) : M BasicCache unit :=
  match key, item with
  | Some key, Some item =>
      modify (λ s, {| cache_data := <[key := item]> (cache_data s) |})
  | _, _ => ret tt
  end.

(** [BasicCache.get] *)
Definition get (key : option K) : M BasicCache (option V) :=
  match key with
  | Some key => gets (λ s, cache_data s !! key)
  | None => ret None
  end.

(** [cache.put(k, v)] for each pair of arguments, in order; an argument may
    be [None]. *)
Definition put_each (calls : list (option K * option V))
  : M BasicCache unit :=
  for_each calls (λ kv, put kv.1 kv.2).

End basic_cache.

Arguments BasicCache K V {_ _}.

End Basic.

(** ** 0x02-i18n/app.py *)

Module I18n.
Local Open Scope string_scope.

(** [Config] *)
Definition LANGUAGES : list string := ["en"; "fr"].
Definition BABEL_DEFAULT_LOCALE : string := "en".

(** A user, a dictionary from field names to strings. *)
Definition user : Type := gmap string string.

Definition users : gmap Z user :=
  {[ 1 := {[ "name" := "Balou"; "locale" := "fr";
             "timezone" := "Europe/Paris" ]};
     2 := {[ "name" := "Beyonce"; "locale" := "en";
             "timezone" := "US/Central" ]} ]}.

(** [get_user]: [users.get(user_id)]. The keys of [users] are integers: a
    key that is a string or [None] is equal to none of them, and [True] and
    [False] are equal to 1 and 0. *)
Definition get_user (user_id : pyval) : option user :=
  match as_int user_id with
  | Some i => users !! i
  | None => None
  end.

(** [o and o in Config.LANGUAGES], for an option [o] that is a string or
    [None]: [None] and the empty string are false. *)
Definition supported (o : option string) : bool :=
  match o with
  | Some l => bool_decide (l ≠ "") && bool_decide (l ∈ LANGUAGES)
  | None => false
  end.

(** [get_locale], on what it reads of the request: [url_locale] is
    [request.args.get('locale')], [g_user] is [g.user], and [best_match] is
    what [request.accept_languages.best_match] returns for [LANGUAGES]. *)
Definition get_locale (url_locale : option string) (g_user : option user)
           (best_match : option string) : option string :=
  let options :=
    [ url_locale;
      match g_user with
      | Some u => if decide (u = ∅) then None else u !! "locale"
      | None => None
      end;
      best_match;
      Some BABEL_DEFAULT_LOCALE ] in
  match filter (λ o, supported o = true) options with
  | o :: _ => o
  | [] => None
  end.

End I18n.

(** * Theorems *)

(** ** Running a method step by step *)

Lemma bind_ok {S A B} (c : M S A) (k : A → M S B) (s s' : S) (a : A) :
  c s = (s', Ok a) → bind c k s = k a s'.
Proof. unfold bind. by intros ->. Qed.

Lemma bind_raise {S A B} (c : M S A) (k : A → M S B) (s s' : S) (e : exn) :
  c s = (s', Raise e) → bind c k s = (s', Raise e).
Proof. unfold bind. by intros ->. Qed.

Lemma bind_ret {S A B} (a : A) (k : A → M S B) (s : S) :
  bind (ret a) k s = k a s.
Proof. reflexivity. Qed.

(** ** The FIFO cache *)

Module FIFOFacts.
Import FIFO.

Section fifo_cache.
Context {K V : Type} `{Countable K}.
Variable MAX_ITEMS : Z.

(** *** What one [put] does, case by case *)

Lemma put_None_key (item : option V) (s : FIFOCache K V) :
  put MAX_ITEMS None item s = (s, Ok tt).
Proof. reflexivity. Qed.

Lemma put_None_item (key : option K) (s : FIFOCache K V) :
  put MAX_ITEMS key None s = (s, Ok tt).
Proof. by destruct key. Qed.

(** No eviction: the key is already present, or there is room. The key is
    appended to [order] in both cases. *)
Lemma put_no_evict (k : K) (v : V) (s : FIFOCache K V) :
  is_Some (cache_data s !! k) ∨ Z.of_nat (size (cache_data s)) < MAX_ITEMS →
  put MAX_ITEMS (Some k) (Some v) s =
    ({| cache_data := <[k := v]> (cache_data s);
        order := order s ++ [k];
        stdout := stdout s |}, Ok tt).
Proof.
  intros Hcase. unfold put, bind, gets. cbn.
  destruct (MAX_ITEMS <=? Z.of_nat (size (cache_data s))) eqn:Hfull; cbn;
    [|done].
  rewrite bool_decide_eq_true_2; [done|].
  destruct Hcase as [?|?]; [done|lia].
Qed.

(** The steps shared by the cases in which the cache is full and the key is
    new: the condition of the [if] holds. *)
Ltac put_full_fresh Hk Hfull :=
  unfold put, bind, gets, order_0, del_cache_data, del_order_0; cbn;
  rewrite (proj2 (Z.leb_le _ _) Hfull);
  rewrite bool_decide_eq_false_2 by (rewrite Hk; by intros [? ?]);
  cbn.

(** Eviction of the front of [order], when it is a key of [cache_data]. *)
Lemma put_evict (k : K) (v : V) (s : FIFOCache K V) (k0 : K)
      (rest : list K) :
  cache_data s !! k = None →
  MAX_ITEMS ≤ Z.of_nat (size (cache_data s)) →
  order s = k0 :: rest →
  is_Some (cache_data s !! k0) →
  put MAX_ITEMS (Some k) (Some v) s =
    ({| cache_data := <[k := v]> (delete k0 (cache_data s));
        order := rest ++ [k];
        stdout := stdout s ++ [k0] |}, Ok tt).
Proof.
  destruct s as [c o out]. cbn. intros Hk Hfull -> [v0 Hk0].
  put_full_fresh Hk Hfull. by rewrite Hk0.
Qed.

(** The front of [order] is not a key of [cache_data]: [del] raises, after
    the line [DISCARD] has been printed. *)
Lemma put_evict_KeyError (k : K) (v : V) (s : FIFOCache K V) (k0 : K)
      (rest : list K) :
  cache_data s !! k = None →
  MAX_ITEMS ≤ Z.of_nat (size (cache_data s)) →
  order s = k0 :: rest →
  cache_data s !! k0 = None →
  put MAX_ITEMS (Some k) (Some v) s =
    ({| cache_data := cache_data s; order := order s;
        stdout := stdout s ++ [k0] |}, Raise KeyError).
Proof.
  destruct s as [c o out]. cbn. intros Hk Hfull -> Hk0.
  put_full_fresh Hk Hfull. by rewrite Hk0.
Qed.

(** [order] is empty although the cache is full: [self.order[0]] raises. *)
Lemma put_evict_IndexError (k : K) (v : V) (s : FIFOCache K V) :
  cache_data s !! k = None →
  MAX_ITEMS ≤ Z.of_nat (size (cache_data s)) →
  order s = [] →
  put MAX_ITEMS (Some k) (Some v) s = (s, Raise IndexError).
Proof.
  destruct s as [c o out]. cbn. intros Hk Hfull ->.
  by put_full_fresh Hk Hfull.
Qed.

Lemma get_state (key : option K) (s : FIFOCache K V) : (get key s).1 = s.
Proof. by destruct key. Qed.

(** *** Filling a fresh cache *)

Lemma put_all_cons (k : K) (v : V) (kvs : list (K * V)) (s : FIFOCache K V) :
  put_all MAX_ITEMS ((k, v) :: kvs) s =
    match put MAX_ITEMS (Some k) (Some v) s with
    | (s', Ok _) => put_all MAX_ITEMS kvs s'
    | (s', Raise e) => (s', Raise e)
    end.
Proof. reflexivity. Qed.

Lemma put_all_fill (kvs done : list (K * V)) :
  NoDup (done ++ kvs).*1 →
  Z.of_nat (length (done ++ kvs)) ≤ MAX_ITEMS →
  put_all MAX_ITEMS kvs (filled done) = (filled (done ++ kvs), Ok tt).
Proof.
  revert done. induction kvs as [|[k v] kvs IH]; intros done Hnd Hlen.
  - by rewrite app_nil_r.
  - assert (Hdone : NoDup done.*1 ∧ k ∉ done.*1).
    { rewrite fmap_app in Hnd. apply NoDup_app in Hnd as (? & Hdisj & ?).
      split; [done|]. intros Hin. apply (Hdisj _ Hin). cbn. left. }
    destruct Hdone as [Hnd' Hk].
    rewrite put_all_cons, put_no_evict.
    2:{ right. cbn. rewrite map_size_list_to_map by done.
        rewrite length_app in Hlen. cbn in Hlen. lia. }
    cbn. replace (mkFIFOCache _ _ _) with (filled (done ++ [(k, v)])).
    2:{ unfold filled. by rewrite list_to_map_snoc, fmap_app. }
    rewrite (cons_middle (k, v) done kvs), (assoc_L (++)) in Hnd, Hlen |- *.
    by apply IH.
Qed.

Lemma put_all_app (l1 l2 : list (K * V)) (s : FIFOCache K V) :
  put_all MAX_ITEMS (l1 ++ l2) s =
    match put_all MAX_ITEMS l1 s with
    | (s', Ok _) => put_all MAX_ITEMS l2 s'
    | (s', Raise e) => (s', Raise e)
    end.
Proof.
  revert s. induction l1 as [|[k v] l1 IH]; intros s; [done|].
  rewrite <-app_comm_cons, !put_all_cons.
  destruct (put _ _ _ s) as [s1 [[]|e]]; [apply IH|done].
Qed.

(** *** The invariant of [put] and [get] *)

Lemma put_keys_in_order (key : option K) (item : option V) (s : FIFOCache K V) :
  keys_in_order s → keys_in_order (put MAX_ITEMS key item s).1.
Proof.
  intros Hinv. destruct key as [k|], item as [v|]; try done.
  destruct (decide (is_Some (cache_data s !! k)
                    ∨ Z.of_nat (size (cache_data s)) < MAX_ITEMS)) as [Hc|Hc].
  - rewrite put_no_evict by done. intros j. cbn.
    rewrite lookup_insert, elem_of_app, list_elem_of_singleton.
    case_decide; [by right|]. intros Hj. left. by apply Hinv.
  - assert (cache_data s !! k = None) as Hk.
    { apply eq_None_not_Some. tauto. }
    assert (MAX_ITEMS ≤ Z.of_nat (size (cache_data s))) as Hfull by lia.
    destruct (order s) as [|k0 rest] eqn:Hord.
    { by rewrite put_evict_IndexError. }
    destruct (cache_data s !! k0) as [v0|] eqn:Hk0.
    + rewrite (put_evict k v s k0 rest) by eauto. intros j. cbn.
      rewrite lookup_insert, elem_of_app, list_elem_of_singleton.
      case_decide; [by right|].
      rewrite lookup_delete. case_decide; [by intros [? ?]|].
      intros Hj. left. apply Hinv in Hj. rewrite Hord in Hj.
      apply elem_of_cons in Hj as [?|?]; [congruence|done].
    + rewrite (put_evict_KeyError k v s k0 rest) by done. apply Hinv.
Qed.

Lemma exec_keys_in_order (s : FIFOCache K V) (c : call) :
  keys_in_order s → keys_in_order (exec MAX_ITEMS s c).
Proof.
  destruct c as [key item|key]; cbn.
  - apply put_keys_in_order.
  - by rewrite get_state.
Qed.

Lemma reachable_keys_in_order (s : FIFOCache K V) :
  reachable MAX_ITEMS s → keys_in_order s.
Proof.
  intros [calls <-]. induction calls as [|c calls IH] using rev_ind.
  - intros k [v Hk]. cbn in Hk. by rewrite lookup_empty in Hk.
  - rewrite foldl_app. cbn. by apply exec_keys_in_order.
Qed.

(** *** Overflowing a fresh cache by one key *)

(** C7. Starting from a fresh FIFO cache of capacity [MAX_ITEMS] (at least
    one), putting [MAX_ITEMS + 1] pairs with distinct keys, in order, raises
    nothing and leaves exactly the last [MAX_ITEMS] keys present, with their
    values; exactly one line [DISCARD] has been printed, and its key is the
    key inserted first. *)
Theorem put_overflow_evicts_first (kvs : list (K * V)) :
  0 < MAX_ITEMS →
  NoDup kvs.*1 →
  Z.of_nat (length kvs) = MAX_ITEMS + 1 →
  ∃ s, put_all MAX_ITEMS kvs init = (s, Ok tt)
     ∧ cache_data s = list_to_map (lastn (Z.to_nat MAX_ITEMS) kvs)
     ∧ dom (cache_data s) = list_to_set (lastn (Z.to_nat MAX_ITEMS) kvs.*1)
     ∧ ∃ k0, head kvs.*1 = Some k0 ∧ stdout s = [k0].
Proof.
  intros Hpos Hnd Hlen.
  destruct kvs as [|[k0 v0] tl]; [cbn in Hlen; lia|].
  destruct tl as [|[kl vl] mid _] using rev_ind; [cbn in Hlen; lia|].
  set (front := (k0, v0) :: mid).
  assert (Hfront : Z.of_nat (length front) = MAX_ITEMS).
  { cbn in Hlen |- *. rewrite length_app in Hlen. cbn in Hlen. lia. }
  assert (Hnd_front : NoDup front.*1 ∧ kl ∉ front.*1).
  { change ((k0, v0) :: mid ++ [(kl, vl)]) with (front ++ [(kl, vl)]) in Hnd.
    rewrite fmap_app in Hnd. apply NoDup_app in Hnd as (? & Hdisj & ?).
    split; [done|]. intros Hin. apply (Hdisj _ Hin). cbn. left. }
  destruct Hnd_front as [Hnd_front Hkl].
  assert (Hk0 : k0 ∉ mid.*1) by (by apply NoDup_cons in Hnd_front as [? ?]).
  assert (Hlast : lastn (Z.to_nat MAX_ITEMS) ((k0, v0) :: mid ++ [(kl, vl)])
                  = mid ++ [(kl, vl)]).
  { unfold lastn. replace (_ - _)%nat with 1%nat; [done|]. lia. }
  exists {| cache_data := list_to_map (mid ++ [(kl, vl)]);
            order := mid.*1 ++ [kl]; stdout := [k0] |}.
  split_and!.
  - change ((k0, v0) :: mid ++ [(kl, vl)]) with (front ++ [(kl, vl)]).
    rewrite put_all_app. change init with (filled (K := K) (V := V) []).
    rewrite put_all_fill; [|done|cbn [app]; lia].
    cbn [app]. rewrite put_all_cons.
    rewrite (put_evict kl vl (filled front) k0 mid.*1).
    + cbn. do 2 f_equal.
      rewrite delete_insert_id by (by apply not_elem_of_list_to_map_1).
      rewrite list_to_map_snoc; [done|].
      intros Hin. apply Hkl. cbn. by right.
    + by apply not_elem_of_list_to_map_1.
    + cbn [filled cache_data]. rewrite map_size_list_to_map by done. lia.
    + done.
    + cbn. by rewrite lookup_insert_eq.
  - cbn [cache_data]. by rewrite Hlast.
  - cbn [cache_data]. rewrite dom_list_to_map_L. unfold lastn in *.
    by rewrite <-fmap_drop, length_fmap, Hlast.
  - by exists k0.
Qed.

(** C10. In every state reachable from a fresh cache by calls of [put] and
    [get] (calls that raise included), every key of [cache_data] occurs in
    [order]; hence, with a capacity of at least one, whenever the cache has
    reached its capacity [self.order[0]], the victim of an eviction, exists:
    it does not raise [IndexError]. *)
Theorem reachable_order_covers_cache (s : FIFOCache K V) :
  reachable MAX_ITEMS s →
  (∀ k, is_Some (cache_data s !! k) → k ∈ order s)
  ∧ (0 < MAX_ITEMS → MAX_ITEMS ≤ Z.of_nat (size (cache_data s)) →
     ∃ k0, order_0 s = (s, Ok k0)).
Proof.
  intros Hinv%reachable_keys_in_order. split; [done|].
  intros Hpos Hfull.
  destruct (map_size_ne_0_lookup_1 (cache_data s)) as [k Hk]; [lia|].
  apply Hinv in Hk. unfold order_0.
  destruct (order s) as [|k0 rest]; [by apply elem_of_nil in Hk|by exists k0].
Qed.

End fifo_cache.

(** *** Overwriting a key, then overflowing *)

Section overwrite.
Context {K V : Type} `{Countable K}.

(** C2, amended. In a FIFO cache of capacity 3, after distinct keys [a],
    [b], [c] are inserted, [a] is overwritten and a new key [d] is
    inserted, no call has raised, the insertion of [d] has evicted [a], the
    key inserted first (its position in the eviction order was not reset by
    the overwrite), and [b], [c], [d] are present with their values. *)
Theorem overwrite_keeps_fifo_position (a b c d : K) (va vb vc va' vd : V) :
  NoDup [a; b; c; d] →
  ∃ s : FIFOCache K V,
    put_all 3 [(a, va); (b, vb); (c, vc); (a, va'); (d, vd)] init = (s, Ok tt)
    ∧ stdout s = [a]
    ∧ cache_data s !! a = None
    ∧ cache_data s !! b = Some vb
    ∧ cache_data s !! c = Some vc
    ∧ cache_data s !! d = Some vd.
Proof.
  intros Hnd.
  assert (a ≠ b ∧ a ≠ c ∧ a ≠ d ∧ b ≠ c ∧ b ≠ d ∧ c ≠ d) as Hne.
  { repeat match goal with
           | Hn : NoDup (_ :: _) |- _ => apply NoDup_cons in Hn as [? Hn]
           end.
    repeat match goal with
           | Hn : _ ∉ _ :: _ |- _ => apply not_elem_of_cons in Hn as [? Hn]
           end.
    done. }
  destruct Hne as (Hab & Hac & Had & Hbc & Hbd & Hcd).
  set (rest := <[b := vb]> (<[c := vc]> (∅ : gmap K V))).
  assert (rest !! a = None) as Ha.
  { unfold rest. by rewrite !lookup_insert_ne, lookup_empty. }
  assert (size rest = 2%nat) as Hsize.
  { unfold rest. rewrite !map_size_insert_None, map_size_empty; [done|..].
    - apply lookup_empty.
    - by rewrite lookup_insert_ne, lookup_empty. }
  exists {| cache_data := <[d := vd]> rest; order := [b; c; a; d];
            stdout := [a] |}.
  split.
  - change [(a, va); (b, vb); (c, vc); (a, va'); (d, vd)]
      with ([(a, va); (b, vb); (c, vc)] ++ [(a, va'); (d, vd)]).
    rewrite put_all_app. change init with (filled (K := K) (V := V) []).
    rewrite put_all_fill; cbn [app]; [| |cbn; lia].
    2:{ apply NoDup_cons in Hnd as [Hn1 Hnd].
        apply NoDup_cons in Hnd as [Hn2 Hnd].
        apply NoDup_cons in Hnd as [Hn3 _].
        cbn. repeat (apply NoDup_cons; split);
          rewrite ?elem_of_cons, ?elem_of_nil; [tauto..|apply NoDup_nil_2]. }
    rewrite put_all_cons, put_no_evict.
    2:{ left. cbn. by rewrite lookup_insert_eq. }
    cbn [filled cache_data order stdout fmap list_fmap fst snd app list_to_map
         foldr uncurry].
    rewrite insert_insert_eq. fold rest.
    rewrite put_all_cons.
    rewrite (put_evict 3 d vd _ a [b; c; a]); cbn [cache_data order stdout].
    + rewrite delete_insert_id by done. done.
    + rewrite lookup_insert_ne by done. unfold rest.
      by rewrite !lookup_insert_ne, lookup_empty.
    + rewrite map_size_insert_None by done. lia.
    + done.
    + by rewrite lookup_insert_eq.
  - cbn [cache_data stdout]. unfold rest.
    split_and!; [done|by simplify_map_eq..].
Qed.

End overwrite.

(** *** The cache on concrete calls *)

Section runs.
Local Open Scope string_scope.

(** C2, as the specification words it, fails: after A, B, C are inserted
    into a cache of capacity 3 and A is overwritten, inserting D prints
    [DISCARD: A], A is gone and B is still there; so it is not the case that
    B was evicted while A stayed. *)
Lemma overwrite_then_insert_evicts_A_not_B :
  let s := (put_all 3 overwrite_run init).1 in
  stdout s = ["A"]
  ∧ cache_data s !! "A" = None
  ∧ cache_data s !! "B" = Some 2
  ∧ ¬ (stdout s = ["B"] ∧ is_Some (cache_data s !! "A")).
Proof.
  cbv zeta. split_and!; [by vm_compute..|].
  intros [Hout _]. vm_compute in Hout. discriminate.
Qed.

(** C3 fails on the code: [put] appends the key to [order] also when it
    overwrites, so [order] keeps a second copy of "A"; once "A" has been
    evicted and its stale copy reaches the front, the next eviction runs
    [del self.cache_data["A"]] on a key that is not there and raises
    [KeyError], after it has printed [DISCARD: A] a second time. *)
Theorem put_raises_KeyError_on_stale_front :
  let (s, r) := put_all 4 stale_front_run init in
  r = Raise KeyError
  ∧ stdout s = ["A"; "B"; "C"; "D"; "A"]
  ∧ order s = ["A"; "E"; "F"; "G"; "H"]
  ∧ cache_data s !! "A" = None
  ∧ size (cache_data s) = 4%nat.
Proof. by vm_compute. Qed.

Lemma overwrite_keeps_fifo_position_witness :
  NoDup ["A"; "B"; "C"; "D"]
  ∧ ∃ s : FIFOCache string Z,
      put_all 3 overwrite_run init = (s, Ok tt)
      ∧ stdout s = ["A"]
      ∧ cache_data s !! "A" = None
      ∧ cache_data s !! "B" = Some 2
      ∧ cache_data s !! "C" = Some 3
      ∧ cache_data s !! "D" = Some 4.
Proof.
  assert (NoDup ["A"; "B"; "C"; "D"]) as Hnd.
  { apply (bool_decide_unpack _). vm_compute. exact I. }
  split; [exact Hnd|].
  exact (overwrite_keeps_fifo_position "A" "B" "C" "D" 1 2 3 10 4 Hnd).
Defined.

Lemma put_overflow_evicts_first_witness :
  (0 < 4 ∧ NoDup overflow_run.*1 ∧ Z.of_nat (length overflow_run) = 4 + 1)
  ∧ ∃ s : FIFOCache string Z,
      put_all 4 overflow_run init = (s, Ok tt)
      ∧ cache_data s = list_to_map (lastn (Z.to_nat 4) overflow_run)
      ∧ dom (cache_data s) = list_to_set (lastn (Z.to_nat 4) overflow_run.*1)
      ∧ ∃ k0, head overflow_run.*1 = Some k0 ∧ stdout s = [k0].
Proof.
  assert (NoDup overflow_run.*1) as Hnd.
  { apply (bool_decide_unpack _). vm_compute. exact I. }
  split; [split_and!; [lia|exact Hnd|reflexivity]|].
  apply (put_overflow_evicts_first 4 overflow_run); [lia|exact Hnd|reflexivity].
Defined.

Lemma reachable_order_covers_cache_witness :
  let s := foldl (exec 2) init some_calls in
  reachable 2 s
  ∧ (∀ k, is_Some (cache_data s !! k) → k ∈ order s)
  ∧ ((0 < 2)%Z → (2 ≤ Z.of_nat (size (cache_data s)))%Z →
     ∃ k0, order_0 s = (s, Ok k0)).
Proof.
  cbv zeta.
  assert (reachable 2 (foldl (exec 2) init some_calls)) as Hreach.
  { by exists some_calls. }
  split; [exact Hreach|].
  exact (reachable_order_covers_cache 2 _ Hreach).
Defined.

End runs.
End FIFOFacts.

(** ** Slices and pages *)

Lemma py_slice_nonneg {A} (l : list A) (start stop : Z) :
  0 ≤ start ≤ stop →
  py_slice l start stop
  = take (Z.to_nat (stop - start)) (drop (Z.to_nat start) l).
Proof.
  intros Hle. unfold py_slice.
  rewrite !(proj2 (Z.ltb_ge _ _)) by lia.
  destruct (decide (start ≤ Z.of_nat (length l))) as [Hin|Hout].
  - rewrite (Z.min_l start) by lia.
    destruct (decide (stop ≤ Z.of_nat (length l))) as [Hs|Hs].
    + by rewrite (Z.min_l stop) by lia.
    + rewrite (Z.min_r stop) by lia.
      rewrite !take_ge; [done|rewrite length_drop; lia..].
  - rewrite !drop_ge by lia. by rewrite !take_nil.
Qed.

(** The pages of a list cut every [n] elements, put together again. *)
Lemma concat_pages {A} (l : list A) (n pages : nat) :
  concat ((λ p, take n (drop (p * n) l)) <$> seq 0 pages) = take (pages * n) l.
Proof.
  induction pages as [|pages IH]; [done|].
  rewrite seq_S, fmap_app, concat_app, IH. cbn [fmap list_fmap concat].
  rewrite app_nil_r, Nat.add_0_l, take_take_drop. f_equal. lia.
Qed.

(** ** 0x00-pagination/1-simple_pagination.py *)

Module SimplePaginationFacts.
Import SimplePagination.

Section server.
Variable DATA_FILE : list row.

(** Once loaded, the data set stays: later calls return the same rows and
    leave the server as it is. *)
Lemma dataset_loaded (s s' : Server) (d : list row) :
  dataset DATA_FILE s = (s', Ok d) →
  __dataset s' = Some d ∧ dataset DATA_FILE s' = (s', Ok d).
Proof.
  destruct s as [[rows|]]; unfold dataset, bind, gets; cbn.
  - intros [= <- <-]. by cbn.
  - destruct DATA_FILE as [|header rows]; cbn; [done|].
    intros [= <- <-]. by cbn.
Qed.

(** A valid call of [get_page] on a server whose data set is [d]. *)
Lemma get_page_positive (s s' : Server) (d : list row) (page page_size : Z) :
  dataset DATA_FILE s = (s', Ok d) →
  0 < page → 0 < page_size →
  get_page DATA_FILE (PyInt page) (PyInt page_size) s
  = (s', Ok (take (Z.to_nat page_size)
               (drop (Z.to_nat ((page - 1) * page_size)) d))).
Proof.
  intros Hd Hp Hn. unfold get_page, assert_isinstance_int_positive, as_int.
  rewrite !(proj2 (Z.ltb_lt _ _)) by done.
  unfold bind, ret. cbv beta iota. rewrite Hd. unfold index_range.
  cbv beta iota zeta.
  destruct (Z.leb_spec (Z.of_nat (length d)) ((page - 1) * page_size)).
  - rewrite drop_ge by lia. by rewrite take_nil.
  - rewrite py_slice_nonneg by nia. do 3 f_equal. lia.
Qed.

Lemma get_pages_from (s s' : Server) (d : list row) (page_size : Z)
      (first pages : nat) :
  dataset DATA_FILE s = (s', Ok d) →
  0 < page_size → (0 < first)%nat →
  ∃ s'',
    map_m (λ p, get_page DATA_FILE (PyInt (Z.of_nat p)) (PyInt page_size))
          (seq first pages) s
    = (s'', Ok ((λ p, take (Z.to_nat page_size)
                        (drop ((p - 1) * Z.to_nat page_size) d))
                <$> seq first pages)).
Proof.
  intros Hd Hn. revert s first Hd.
  induction pages as [|pages IH]; intros s first Hd Hfirst; [by exists s|].
  cbn [seq map_m]. unfold bind at 1.
  rewrite (get_page_positive s s' d) by (done || lia).
  destruct (dataset_loaded _ _ _ Hd) as [_ Hd'].
  destruct (IH s' (S first) Hd') as [s'' Hrest]; [lia|].
  exists s''. unfold bind at 1. rewrite Hrest. unfold ret.
  rewrite Z2Nat.inj_mul by lia.
  by replace (Z.to_nat (Z.of_nat first - 1)) with (first - 1)%nat by lia.
Qed.

(** C8. On a server whose data set is [d], of length [L], and for a page
    size [N] with [1 ≤ N ≤ L], the pages [get_page(1, N)], [get_page(2, N)],
    ..., [get_page(pages, N)], where the pages cover the data set
    ([pages * N ≥ L], as for [pages = ceil(L / N)]), are all returned without
    an exception, and put together in order they are [d]. *)
Theorem get_page_roundtrip (s s' : Server) (d : list row) (N : Z) (pages : nat) :
  dataset DATA_FILE s = (s', Ok d) →
  1 ≤ N ≤ Z.of_nat (length d) →
  Z.of_nat (length d) ≤ Z.of_nat pages * N →
  ∃ s'' ps, get_pages DATA_FILE pages N s = (s'', Ok ps) ∧ concat ps = d.
Proof.
  intros Hd [HN _] Hcover.
  destruct (get_pages_from s s' d N 1 pages Hd) as [s'' Hps]; [lia..|].
  exists s'', ((λ p, take (Z.to_nat N) (drop ((p - 1) * Z.to_nat N) d))
               <$> seq 1 pages).
  split; [done|].
  rewrite <-fmap_S_seq, <-list_fmap_compose.
  erewrite (list_fmap_ext _ (λ p, take (Z.to_nat N) (drop (p * Z.to_nat N) d))).
  2:{ intros i p _. cbn. do 2 f_equal. lia. }
  rewrite concat_pages. apply take_ge. nia.
Qed.

End server.

Lemma get_page_roundtrip_witness :
  (dataset five_rows init = ({| __dataset := Some (tail five_rows) |},
                             Ok (tail five_rows))
   ∧ 1 ≤ 2 ≤ Z.of_nat (length (tail five_rows))
   ∧ Z.of_nat (length (tail five_rows)) ≤ Z.of_nat 3 * 2)
  ∧ ∃ s'' ps, get_pages five_rows 3 2 init = (s'', Ok ps)
              ∧ concat ps = tail five_rows.
Proof.
  assert (1 ≤ 2 ≤ Z.of_nat (length (tail five_rows))) as HN by (cbn; lia).
  assert (Z.of_nat (length (tail five_rows)) ≤ Z.of_nat 3 * 2) as Hc
    by (cbn; lia).
  split; [split; [reflexivity|split; [exact HN|exact Hc]]|].
  exact (get_page_roundtrip five_rows init _ _ 2 3 eq_refl HN Hc).
Defined.

End SimplePaginationFacts.

(** ** 0x00-pagination/3-hypermedia_del_pagination.py *)

Module DelPaginationFacts.
Import DelPagination.

(** *** The snapshot *)

(** The dictionary comprehension, stopped after [n] positions. *)
Lemma index_rows_prefix (dataset : list row) (n : nat) :
  (n ≤ length dataset)%nat →
  let indexed :=
    foldl (λ indexed i,
             match dataset !! i with
             | Some record => <[Z.of_nat i := record]> indexed
             | None => indexed
             end)
          (∅ : gmap Z row) (seq 0 n) in
  size indexed = n
  ∧ ∀ k, indexed !! k
         = if decide (0 ≤ k < Z.of_nat n) then dataset !! Z.to_nat k else None.
Proof.
  cbv zeta. induction n as [|n IH]; intros Hn.
  - split; [done|]. intros k. rewrite decide_False by lia. apply lookup_empty.
  - destruct IH as [IHsize IHlook]; [lia|].
    rewrite seq_S, foldl_app. cbn [foldl Nat.add].
    destruct (lookup_lt_is_Some_2 dataset n) as [record Hrec]; [lia|].
    rewrite Hrec. split.
    + rewrite map_size_insert_None, IHsize; [done|].
      rewrite IHlook. apply decide_False. lia.
    + intros k. rewrite lookup_insert. case_decide as Hk.
      * subst k. rewrite decide_True by lia. by rewrite Nat2Z.id.
      * rewrite IHlook. repeat case_decide; try done; lia.
Qed.

(** The snapshot has one entry for each row of the data set, however many
    there are. *)
Lemma index_rows_size (dataset : list row) :
  size (index_rows dataset) = length dataset.
Proof. by apply (index_rows_prefix dataset (length dataset)). Qed.

Lemma index_rows_lookup (dataset : list row) (k : Z) :
  index_rows dataset !! k
  = if decide (0 ≤ k < Z.of_nat (length dataset)) then dataset !! Z.to_nat k
    else None.
Proof. by apply (index_rows_prefix dataset (length dataset)). Qed.

Section server.
Variable DATA_FILE : list row.

(** [indexed_dataset] never raises. *)
Lemma indexed_dataset_returns (s : Server) :
  ∃ s' indexed,
    indexed_dataset DATA_FILE s = (s', Ok indexed)
    ∧ __indexed_dataset s' = Some indexed.
Proof.
  destruct s as [[rows|] [indexed|]];
    unfold indexed_dataset, dataset, bind, gets, modify, ret; cbn;
    eauto.
Qed.

(** On a fresh server the snapshot indexes the whole data set. *)
Lemma indexed_dataset_init :
  indexed_dataset DATA_FILE init
  = ({| __dataset := Some (drop 1 DATA_FILE);
        __indexed_dataset := Some (index_rows (drop 1 DATA_FILE)) |},
     Ok (index_rows (drop 1 DATA_FILE))).
Proof. reflexivity. Qed.

(** [get_hyper_index], on the snapshot [indexed_dataset] returns. *)
Lemma get_hyper_index_unfold (index : option Z) (page_size : Z)
      (s s' : Server) (indexed : gmap Z row) :
  indexed_dataset DATA_FILE s = (s', Ok indexed) →
  get_hyper_index DATA_FILE index page_size s
  = (s', Ok (let loop := while_loop indexed page_size []
                           (match index with Some i => i | None => 0 end) in
             {| index := index;
                next_index := if loop.2 <? Z.of_nat (size indexed)
                              then Some loop.2 else None;
                page_size := Z.of_nat (length loop.1);
                data := loop.1 |})).
Proof.
  intros Hidx. unfold get_hyper_index, bind at 1. rewrite Hidx. cbv zeta.
  by destruct (while_loop _ _ _ _).
Qed.

(** C9 fails on the code: a call that leaves [index] out pages from position
    0, as the call with [index = 0] does (same state after the call, same
    [data], [page_size] and [next_index]), but the field [index] of its
    response is [None], not the start 0 that was used. *)
Theorem get_hyper_index_None_echoes_None (page_size : Z) (s : Server) :
  ∃ s' r,
    get_hyper_index DATA_FILE (Some 0) page_size s = (s', Ok r)
    ∧ index r = Some 0
    ∧ get_hyper_index DATA_FILE None page_size s
      = (s', Ok {| index := None;
                   next_index := next_index r;
                   page_size := DelPagination.page_size r;
                   data := data r |}).
Proof.
  destruct (indexed_dataset_returns s) as (s' & indexed & Hidx & _).
  rewrite !(get_hyper_index_unfold _ _ s s' indexed) by done.
  eexists _, _. split; [reflexivity|]. by split.
Qed.

End server.

(** *** The loop *)

(** The loop appends to [data] the records it meets from [current_index]
    on, until [data] has [page_size] records or [current_index] has reached
    the number of entries of the snapshot. *)
Lemma while_loop_data (indexed_data : gmap Z row) (page_size : Z)
      (data : list row) (current_index : Z) :
  (while_loop indexed_data page_size data current_index).1
  = data ++ take (Z.to_nat (page_size - Z.of_nat (length data)))
                 (live_window indexed_data current_index
                    (Z.of_nat (size indexed_data))).
Proof.
  funelim (while_loop indexed_data page_size data current_index).
  - rewrite H. unfold live_window.
    rewrite (seqZ_cons current_index) by lia. cbn [omap list_omap].
    replace (Z.pred (Z.of_nat (size indexed_data) - current_index))
      with (Z.of_nat (size indexed_data) - (current_index + 1)) by lia.
    replace (Z.succ current_index) with (current_index + 1) by lia.
    destruct (indexed_data !! current_index) as [record|]; [|done].
    rewrite <-(assoc_L (++)), length_app. cbn [length app].
    replace (Z.to_nat (page_size0 - Z.of_nat (length data0)))
      with (S (Z.to_nat (page_size0 - Z.of_nat (length data0 + 1)))) by lia.
    done.
  - cbn [fst]. unfold live_window.
    destruct (decide (Z.of_nat (length data0) < page_size0)).
    + rewrite seqZ_nil by lia. cbn. by rewrite take_nil, app_nil_r.
    + replace (Z.to_nat _) with 0%nat by lia. by rewrite take_0, app_nil_r.
Qed.

(** The page of [get_hyper_index]: the first [page_size] records met between
    the start and the number of entries of the snapshot. It never raises,
    whatever [page_size] is. *)
Lemma get_hyper_index_data (DATA_FILE : list row) (index : option Z)
      (page_size : Z) (s : Server) :
  ∃ s' indexed r,
    indexed_dataset DATA_FILE s = (s', Ok indexed)
    ∧ get_hyper_index DATA_FILE index page_size s = (s', Ok r)
    ∧ data r = take (Z.to_nat page_size)
                    (live_window indexed
                       (match index with Some i => i | None => 0 end)
                       (Z.of_nat (size indexed))).
Proof.
  destruct (indexed_dataset_returns DATA_FILE s) as (s' & indexed & Hidx & _).
  rewrite (get_hyper_index_unfold _ _ _ s s' indexed) by done.
  eexists _, _, _. split; [done|]. split; [reflexivity|].
  cbn [data]. rewrite while_loop_data. cbn [app length]. do 2 f_equal. lia.
Qed.

(** A [page_size] that is not positive gives an empty page, not an error. *)
Lemma get_hyper_index_nonpositive (DATA_FILE : list row) (index : option Z)
      (page_size : Z) (s : Server) :
  page_size ≤ 0 →
  ∃ s' r, get_hyper_index DATA_FILE index page_size s = (s', Ok r)
          ∧ data r = [].
Proof.
  intros Hps.
  destruct (get_hyper_index_data DATA_FILE index page_size s)
    as (s' & indexed & r & _ & Hr & Hdata).
  exists s', r. split; [done|]. rewrite Hdata.
  replace (Z.to_nat page_size) with 0%nat by lia. apply take_0.
Qed.

(** *** Counting the records of a page *)

Lemma omap_lookup_empty (l : list Z) :
  omap (λ i, (∅ : gmap Z row) !! i) l = [].
Proof. induction l as [|k l IH]; [done|]. csimpl. by rewrite lookup_empty. Qed.

Lemma omap_lookup_insert_length (m : gmap Z row) (i : Z) (x : row)
      (l : list Z) :
  NoDup l → m !! i = None →
  length (omap (λ k, <[i := x]> m !! k) l)
  = (length (omap (λ k, m !! k) l) + if decide (i ∈ l) then 1 else 0)%nat.
Proof.
  intros Hnd Hi. induction Hnd as [|k l Hk Hnd IH]; [done|].
  csimpl. rewrite lookup_insert.
  destruct (decide (i = k)) as [<-|Hne].
  - rewrite Hi. cbn [length]. rewrite IH, (decide_False (P := i ∈ l)) by done.
    rewrite decide_True by left. lia.
  - destruct (m !! k); cbn [length]; rewrite IH;
      destruct (decide (i ∈ l)) as [Hin|Hin].
    + rewrite decide_True by (by right). lia.
    + rewrite decide_False; [lia|]. by intros [?|?]%elem_of_cons.
    + by rewrite decide_True by (by right).
    + rewrite decide_False; [lia|]. by intros [?|?]%elem_of_cons.
Qed.

(** The records met between two positions are as many as the entries of the
    snapshot with a key between them. *)
Lemma live_window_length (indexed_data : gmap Z row) (start stop : Z) :
  length (live_window indexed_data start stop)
  = size (filter (λ kv : Z * row, start ≤ kv.1 < stop) indexed_data).
Proof.
  unfold live_window.
  induction indexed_data as [|i x m Hi IH] using map_ind.
  - by rewrite omap_lookup_empty, map_filter_empty, map_size_empty.
  - rewrite omap_lookup_insert_length by (done || apply NoDup_seqZ).
    rewrite IH, map_filter_insert. cbn [fst].
    destruct (decide (start ≤ i < stop)) as [Hin|Hout].
    + rewrite decide_True by (apply elem_of_seqZ; lia).
      rewrite map_size_insert_None; [lia|].
      apply map_lookup_filter_None_2. by left.
    + rewrite decide_False by (rewrite elem_of_seqZ; lia).
      rewrite delete_id by done. lia.
Qed.

(** What the code does, in general: for a [page_size] that is not negative,
    the page has [min(page_size, n)] records, where [n] counts the records at
    positions from the start up to, and without, [len(indexed_data)]. *)
Lemma get_hyper_index_page_size (DATA_FILE : list row) (index : option Z)
      (page_size : Z) (s : Server) :
  0 ≤ page_size →
  ∃ s' indexed r,
    indexed_dataset DATA_FILE s = (s', Ok indexed)
    ∧ get_hyper_index DATA_FILE index page_size s = (s', Ok r)
    ∧ DelPagination.page_size r
      = Z.min page_size
          (Z.of_nat
             (size (filter
                      (λ kv : Z * row,
                         match index with Some i => i | None => 0 end ≤ kv.1
                         < Z.of_nat (size indexed))
                      indexed))).
Proof.
  intros Hps.
  destruct (indexed_dataset_returns DATA_FILE s) as (s' & indexed & Hidx & _).
  rewrite (get_hyper_index_unfold _ _ _ s s' indexed) by done.
  eexists _, _, _. split; [done|]. split; [reflexivity|].
  cbn [DelPagination.page_size]. rewrite while_loop_data. cbn [app length].
  rewrite length_take, live_window_length. lia.
Qed.

(** On a snapshot whose positions are all below its number of entries, as
    the snapshot of a server from which no record was deleted, the records
    counted are all the records at the start and later. *)
Lemma live_from_below_size (indexed_data : gmap Z row) (start : Z) :
  (∀ k, is_Some (indexed_data !! k) → k < Z.of_nat (size indexed_data)) →
  filter (λ kv : Z * row, start ≤ kv.1 < Z.of_nat (size indexed_data))
         indexed_data
  = filter (λ kv : Z * row, start ≤ kv.1) indexed_data.
Proof.
  intros Hbelow. apply map_filter_ext. intros k x Hk. cbn [fst].
  specialize (Hbelow k (mk_is_Some _ _ Hk)). lia.
Qed.

(** On a fresh server, which pages over the snapshot it takes itself, C1
    holds: the page has [min(page_size, n)] records, for the number [n] of
    records at the start and later. *)
Lemma get_hyper_index_fresh_server (DATA_FILE : list row) (index : option Z)
      (page_size : Z) :
  0 < page_size →
  ∃ s' r,
    get_hyper_index DATA_FILE index page_size init = (s', Ok r)
    ∧ DelPagination.page_size r
      = Z.min page_size
          (Z.of_nat (live_from (index_rows (drop 1 DATA_FILE))
                               (match index with Some i => i | None => 0 end))).
Proof.
  intros Hps.
  destruct (get_hyper_index_page_size DATA_FILE index page_size init)
    as (s' & indexed & r & Hidx & Hr & Hsize); [lia|].
  rewrite indexed_dataset_init in Hidx. injection Hidx as <- <-.
  eexists _, r. split; [done|]. rewrite Hsize. unfold live_from.
  rewrite live_from_below_size; [done|].
  intros k [x Hk]. rewrite index_rows_lookup in Hk.
  rewrite index_rows_size. case_decide; [lia|done].
Qed.

(** The example of the specification: with positions 2 and 5 deleted from a
    snapshot of ten records, the page of size 3 from index 0 has the records
    of positions 0, 1 and 3, and the next index is 4. *)
Lemma get_hyper_index_skips_gap :
  (get_hyper_index ten_rows (Some 0) 3 gapped_server).2
  = Ok {| index := Some 0;
          next_index := Some 4;
          page_size := 3;
          data := [["2016"; "Olivia"]; ["2016"; "Chloe"];
                   ["2016"; "Emma"]]%string |}.
Proof. by vm_compute. Qed.

(** C1 fails on the code: the loop stops at [len(indexed_data)], the number
    of entries of the snapshot, which is smaller than the last position once
    records were deleted. With positions 2 and 5 deleted from a snapshot of
    ten records, four records are at positions 6 and later (6, 7, 8, 9), and
    the page of size 3 from index 6 has only two of them (those of positions
    6 and 7), with [next_index] [None]: less than [min(3, 4) = 3]. *)
Theorem get_hyper_index_short_page_after_deletions :
  (get_hyper_index ten_rows (Some 6) 3 gapped_server).2
  = Ok {| index := Some 6;
          next_index := None;
          page_size := 2;
          data := [["2016"; "Charlotte"]; ["2016"; "Sarah"]]%string |}
  ∧ live_from gapped_snapshot 6 = 4%nat
  ∧ gapped_snapshot !! 8 = Some ["2016"; "Isabella"]%string
  ∧ gapped_snapshot !! 9 = Some ["2016"; "Hannah"]%string
  ∧ Z.min 3 (Z.of_nat (live_from gapped_snapshot 6)) = 3.
Proof. by vm_compute. Qed.

(** C4 fails on the code: [indexed_dataset] indexes every row of the data
    set; on a file with a header and 1001 rows the snapshot has 1001
    entries, the last at position 1000. *)
Theorem indexed_dataset_not_bounded_by_1000 :
  ∃ s indexed,
    indexed_dataset long_file init = (s, Ok indexed)
    ∧ size indexed = 1001%nat
    ∧ is_Some (indexed !! 1000).
Proof.
  eexists _, _. split; [apply indexed_dataset_init|]. split.
  - by rewrite index_rows_size.
  - rewrite index_rows_lookup, decide_True by (by vm_compute).
    vm_compute. by eexists.
Qed.

End DelPaginationFacts.

(** ** Validation of [page] and [page_size] *)

Lemma assert_isinstance_int_positive_fails {S} (v : pyval) (s : S) :
  positive_int v = false →
  assert_isinstance_int_positive v s = (s, Raise AssertionError).
Proof.
  unfold positive_int, assert_isinstance_int_positive.
  destruct (as_int v) as [z|]; [|done]. by intros ->.
Qed.

Lemma assert_isinstance_int_positive_passes {S} (v : pyval) (s : S) :
  positive_int v = true →
  ∃ z, as_int v = Some z ∧ 0 < z
       ∧ assert_isinstance_int_positive v s = (s, Ok z).
Proof.
  unfold positive_int, assert_isinstance_int_positive.
  destruct (as_int v) as [z|]; [|done]. intros Hz. rewrite Hz.
  exists z. split_and!; [done|by apply Z.ltb_lt|done].
Qed.

(** [get_page] of 0x00-pagination/1-simple_pagination.py fails fast: when
    [page] or [page_size] is not a positive integer it raises
    [AssertionError] and the server is as before the call. *)
Lemma simple_get_page_fails_fast (DATA_FILE : list row) (page page_size : pyval)
      (s : SimplePagination.Server) :
  positive_int page && positive_int page_size = false →
  SimplePagination.get_page DATA_FILE page page_size s
  = (s, Raise AssertionError).
Proof.
  intros Hbad. unfold SimplePagination.get_page, bind.
  destruct (positive_int page) eqn:Hpage.
  - destruct (assert_isinstance_int_positive_passes page s Hpage)
      as (z & _ & _ & ->).
    by rewrite assert_isinstance_int_positive_fails.
  - by rewrite assert_isinstance_int_positive_fails.
Qed.

(** ** 0x00-pagination/2-hypermedia_pagination.py *)

Module HypermediaPaginationFacts.
Import HypermediaPagination.

(** The ceiling of the exact quotient, in integer arithmetic. *)
Lemma Qceiling_quotient (a b : Z) :
  0 < b → Qceiling (inject_Z a / inject_Z b) = - (- a / b).
Proof.
  intros Hb. destruct b as [|b|b]; [lia| |lia].
  unfold Qceiling, Qfloor, Qdiv, Qinv, Qmult, Qopp, inject_Z. cbn.
  by rewrite Z.mul_1_r.
Qed.

(** The ceiling of [a / b] is the least [n] with [a ≤ n * b]. *)
Lemma Qceiling_quotient_least (a b : Z) :
  0 < b →
  let n := Qceiling (inject_Z a / inject_Z b) in
  a ≤ n * b ∧ (n - 1) * b < a.
Proof.
  intros Hb. cbv zeta. rewrite Qceiling_quotient by done.
  pose proof (Z.div_mod (- a) b) as Hdiv.
  pose proof (Z.mod_pos_bound (- a) b Hb). nia.
Qed.

Section server.
Variable DATA_FILE : list row.

Lemma dataset_returns (s : Server) :
  ∃ s' d, dataset DATA_FILE s = (s', Ok d)
          ∧ dataset DATA_FILE s' = (s', Ok d).
Proof.
  destruct s as [[rows|]]; unfold dataset, bind, gets, modify, ret; cbn; eauto.
Qed.

(** [get_page] fails fast. *)
Lemma get_page_fails_fast (page page_size : pyval) (s : Server) :
  positive_int page && positive_int page_size = false →
  get_page DATA_FILE page page_size s = (s, Raise AssertionError).
Proof.
  intros Hbad. unfold get_page, bind.
  destruct (positive_int page) eqn:Hpage.
  - destruct (assert_isinstance_int_positive_passes page s Hpage)
      as (z & _ & _ & ->).
    by rewrite assert_isinstance_int_positive_fails.
  - by rewrite assert_isinstance_int_positive_fails.
Qed.

(** [get_hyper] fails fast too: it calls [get_page] first. *)
Lemma get_hyper_fails_fast (page page_size : pyval) (s : Server) :
  positive_int page && positive_int page_size = false →
  get_hyper DATA_FILE page page_size s = (s, Raise AssertionError).
Proof.
  intros Hbad. unfold get_hyper, bind at 1.
  by rewrite get_page_fails_fast.
Qed.

(** A valid call of [get_page] returns. *)
Lemma get_page_returns (page page_size : pyval) (s : Server) :
  positive_int page && positive_int page_size = true →
  ∃ s' d rows,
    dataset DATA_FILE s = (s', Ok d)
    ∧ get_page DATA_FILE page page_size s = (s', Ok rows).
Proof.
  intros [Hpage Hsize]%andb_prop.
  destruct (dataset_returns s) as (s' & d & Hd & _).
  destruct (assert_isinstance_int_positive_passes page s Hpage)
    as (p & _ & _ & Hp).
  destruct (assert_isinstance_int_positive_passes page_size s Hsize)
    as (n & _ & _ & Hn).
  exists s', d. unfold get_page, bind. rewrite Hp, Hn. unfold index_range.
  cbv zeta beta iota. rewrite Hd.
  destruct (_ <=? _); unfold ret; eauto.
Qed.

(** On this server, for valid [page] and [page_size], [total_pages] is the
    ceiling of [L / page_size] for the length [L] of the data set: the
    least number of pages of that size that covers the data set. *)
Lemma get_hyper_total_pages_ceiling (page page_size : pyval) (s : Server) :
  positive_int page && positive_int page_size = true →
  ∃ s' d r n,
    dataset DATA_FILE s = (s', Ok d)
    ∧ as_int page_size = Some n
    ∧ get_hyper DATA_FILE page page_size s = (s', Ok r)
    ∧ total_pages r = Qceiling (inject_Z (Z.of_nat (length d)) / inject_Z n)
    ∧ Z.of_nat (length d) ≤ total_pages r * n
    ∧ (total_pages r - 1) * n < Z.of_nat (length d).
Proof.
  intros Hvalid.
  destruct (get_page_returns page page_size s Hvalid)
    as (s' & d & rows & Hd & Hrows).
  destruct (dataset_returns s) as (s'' & d' & Hd' & Hd'').
  rewrite Hd in Hd'. injection Hd' as <- <-.
  apply andb_prop in Hvalid as [Hpage Hsize].
  destruct (assert_isinstance_int_positive_passes page s Hpage)
    as (p & Hp & Hp0 & _).
  destruct (assert_isinstance_int_positive_passes page_size s Hsize)
    as (n & Hn & Hn0 & _).
  exists s', d. eexists _, n. split; [done|]. split; [done|].
  unfold get_hyper, bind at 1. rewrite Hrows.
  unfold bind at 1. rewrite Hd''.
  unfold int_operand. rewrite Hp, Hn. unfold bind at 1, ret at 1.
  unfold ceil_truediv. rewrite (proj2 (Z.eqb_neq n 0)) by lia.
  unfold bind at 1, ret at 1. unfold bind at 1, ret at 1.
  unfold bind at 1. rewrite Hd''. unfold ret.
  split; [reflexivity|]. cbn [total_pages]. split; [done|].
  by apply Qceiling_quotient_least.
Qed.

End server.
End HypermediaPaginationFacts.

(** ** 2-hypermedia_pagination.py *)

Module HelperPaginationFacts.
Import HelperPagination.

(** The loop of [index_range] computes the bounds of the page. *)
Lemma index_range_closed_form (page page_size : Z) :
  0 < page →
  index_range page page_size = ((page - 1) * page_size, page * page_size).
Proof.
  intros Hpage. unfold index_range.
  assert (∀ n : nat,
            Nat.iter (S n) (λ '(start, end_), (end_, end_ + page_size)) (0, 0)
            = (Z.of_nat n * page_size, Z.of_nat (S n) * page_size)) as Hiter.
  { induction n as [|n IH]; [cbn; f_equal; lia|].
    rewrite Nat.iter_succ, IH. f_equal; lia. }
  replace (Z.to_nat page) with (S (Z.to_nat (page - 1))) by lia.
  rewrite Hiter, Nat2Z.inj_succ, Z2Nat.id by lia. f_equal; lia.
Qed.

Section server.
Variable DATA_FILE : list row.

(** On this server, for valid [page] and [page_size] and a data set of
    length [L], [total_pages] is [L // page_size + 1]. *)
Lemma get_hyper_total_pages_floor_plus_one (page page_size : Z) (s s' : Server)
      (d : list row) :
  dataset DATA_FILE s = (s', Ok d) →
  0 < page → 0 < page_size →
  ∃ r, get_hyper DATA_FILE (PyInt page) (PyInt page_size) s = (s', Ok r)
       ∧ total_pages r = Z.of_nat (length d) / page_size + 1.
Proof.
  intros Hd Hpage Hsize.
  assert (dataset DATA_FILE s' = (s', Ok d)) as Hd'.
  { revert Hd. destruct s as [[rows|]]; unfold dataset, bind, gets; cbn.
    - by intros [= <- <-].
    - destruct DATA_FILE; cbn; [done|]. by intros [= <- <-]. }
  assert (∃ rows, get_page DATA_FILE (PyInt page) (PyInt page_size) s'
                  = (s', Ok rows)) as [rows Hrows].
  { unfold get_page, assert_positive_integer_type, assert_type_is_int_positive.
    rewrite !(proj2 (Z.ltb_lt _ _)) by done. rewrite !bind_ret.
    rewrite (bind_ok _ _ _ _ _ Hd'). destruct (index_range _ _). by eexists. }
  unfold get_hyper. rewrite (bind_ok _ _ _ _ _ Hd).
  unfold int_operand, as_int, floordiv. rewrite bind_ret.
  rewrite (proj2 (Z.eqb_neq page_size 0)) by lia. rewrite bind_ret.
  cbv zeta. rewrite (bind_ok _ _ _ _ _ Hrows), bind_ret.
  by eexists.
Qed.

End server.

(** C6 fails on the code of 2-hypermedia_pagination.py: [total_pages] is
    [L // page_size + 1], one more than the ceiling whenever [page_size]
    divides [L]. On a data set of ten rows, [get_hyper(1, 5)] has
    [total_pages] 3, and the ceiling of 10 / 5 is 2 (as
    [get_hyper] of 0x00-pagination/2-hypermedia_pagination.py has it). *)
Theorem get_hyper_total_pages_off_by_one :
  (get_hyper ten_rows (PyInt 1) (PyInt 5) init).2
  = Ok {| page := PyInt 1;
          page_size := 5;
          total_pages := 3;
          data := [["2016"; "Olivia"]; ["2016"; "Chloe"]; ["2016"; "Sophia"];
                   ["2016"; "Emma"]; ["2016"; "Emily"]]%string;
          prev_page := None;
          next_page := Some 2 |}
  ∧ Z.of_nat (length (drop 1 ten_rows)) = 10
  ∧ Qceiling (inject_Z 10 / inject_Z 5) = 2
  ∧ HypermediaPagination.total_pages
      <$> match (HypermediaPagination.get_hyper ten_rows (PyInt 1) (PyInt 5)
                   HypermediaPagination.init).2 with
          | Ok r => Some r
          | Raise _ => None
          end
    = Some 2.
Proof. by vm_compute. Qed.

(** C5 fails on the code. [get_hyper_index] checks nothing: with
    [page_size = 0] it takes the snapshot (the server is no more as before
    the call) and returns an empty page. [get_hyper] of
    2-hypermedia_pagination.py loads the data set and divides by [page_size]
    before [get_page] checks the arguments: with [page_size = 0] it raises
    [ZeroDivisionError], and with [page = 0] it raises [AssertionError], in
    both cases on a server that has loaded the data set. *)
Theorem invalid_page_size_not_rejected :
  DelPagination.get_hyper_index five_rows (Some 0) 0 DelPagination.init
  = ({| DelPagination.__dataset := Some (drop 1 five_rows);
        DelPagination.__indexed_dataset :=
          Some (DelPagination.index_rows (drop 1 five_rows)) |},
     Ok {| DelPagination.index := Some 0;
           DelPagination.next_index := Some 0;
           DelPagination.page_size := 0;
           DelPagination.data := [] |})
  ∧ get_hyper ten_rows (PyInt 1) (PyInt 0) init
    = ({| __dataset := Some (drop 1 ten_rows) |}, Raise ZeroDivisionError)
  ∧ get_hyper ten_rows (PyInt 0) (PyInt 3) init
    = ({| __dataset := Some (drop 1 ten_rows) |}, Raise AssertionError).
Proof. split_and!; reflexivity. Qed.

End HelperPaginationFacts.

(** * More of the code *)

(** ** 0x01-caching/1-fifo_cache.py: what [put] and [get] guarantee *)

Module FIFOMore.
Import FIFO FIFOFacts.

Section fifo_cache.
Context {K V : Type} `{Countable K}.
Variable MAX_ITEMS : Z.

(** The four ways a [put] of a key and an item that are not [None] goes. *)
Lemma put_cases (k : K) (v : V) (s : FIFOCache K V) :
  ((is_Some (cache_data s !! k) ∨ Z.of_nat (size (cache_data s)) < MAX_ITEMS)
   ∧ put MAX_ITEMS (Some k) (Some v) s
     = ({| cache_data := <[k := v]> (cache_data s);
           order := order s ++ [k];
           stdout := stdout s |}, Ok tt))
  ∨ (cache_data s !! k = None
     ∧ MAX_ITEMS ≤ Z.of_nat (size (cache_data s))
     ∧ ((∃ k0 rest,
           order s = k0 :: rest ∧ is_Some (cache_data s !! k0)
           ∧ put MAX_ITEMS (Some k) (Some v) s
             = ({| cache_data := <[k := v]> (delete k0 (cache_data s));
                   order := rest ++ [k];
                   stdout := stdout s ++ [k0] |}, Ok tt))
        ∨ (∃ k0 rest,
             order s = k0 :: rest ∧ cache_data s !! k0 = None
             ∧ put MAX_ITEMS (Some k) (Some v) s
               = ({| cache_data := cache_data s; order := order s;
                     stdout := stdout s ++ [k0] |}, Raise KeyError))
        ∨ (order s = []
           ∧ put MAX_ITEMS (Some k) (Some v) s = (s, Raise IndexError)))).
Proof.
  destruct (decide (is_Some (cache_data s !! k)
                    ∨ Z.of_nat (size (cache_data s)) < MAX_ITEMS)) as [Hc|Hc].
  { left. split; [done|]. by apply put_no_evict. }
  right.
  assert (cache_data s !! k = None) as Hk by (apply eq_None_not_Some; tauto).
  assert (MAX_ITEMS ≤ Z.of_nat (size (cache_data s))) as Hfull by lia.
  split; [done|]. split; [done|].
  destruct (order s) as [|k0 rest] eqn:Hord.
  { right. right. split; [done|]. by apply put_evict_IndexError. }
  destruct (cache_data s !! k0) as [v0|] eqn:Hk0.
  - left. exists k0, rest. split; [done|]. split; [by eexists|].
    apply put_evict; eauto.
  - right. left. exists k0, rest. split; [done|]. split; [done|].
    rewrite <-Hord. by apply (put_evict_KeyError _ _ _ _ k0 rest).
Qed.

(** X1. With a capacity that is not negative, [cache_data] never holds more
    than [MAX_ITEMS] entries, in any state reached from a fresh cache by
    calls of [put] and [get]. *)
Theorem reachable_within_capacity (s : FIFOCache K V) :
  0 ≤ MAX_ITEMS →
  reachable MAX_ITEMS s →
  Z.of_nat (size (cache_data s)) ≤ MAX_ITEMS.
Proof.
  intros Hcap [calls <-].
  induction calls as [|c calls IH] using rev_ind.
  { cbn. rewrite map_size_empty. lia. }
  rewrite foldl_app. cbn [foldl].
  set (s := foldl (exec MAX_ITEMS) init calls) in *.
  destruct c as [[k|] [v|]|key]; cbn [exec]; try done.
  2:{ by rewrite get_state. }
  destruct (put_cases k v s)
    as [[Hcase ->]|(Hk & Hfull & [(k0 & rest & _ & Hk0 & ->)
                                  |[(k0 & rest & _ & _ & ->)|[_ ->]]])];
    cbn [fst cache_data]; try done.
  - destruct Hcase as [Hin|Hroom].
    + by rewrite map_size_insert_Some.
    + rewrite map_size_insert. destruct (cache_data s !! k); cbn; lia.
  - rewrite map_size_insert_None by (by rewrite lookup_delete_ne, Hk
      by (intros ->; rewrite Hk in Hk0; by destruct Hk0)).
    rewrite map_size_delete_Some by done.
    pose proof (map_size_ne_0_lookup_2 _ _ Hk0). lia.
Qed.

(** X2. A [put] of a key and an item that returns normally is seen by
    [get]: right after it, [get] of the key returns the item, and leaves the
    cache as it is. *)
Theorem put_then_get (k : K) (v : V) (s s' : FIFOCache K V) :
  put MAX_ITEMS (Some k) (Some v) s = (s', Ok tt) →
  get (Some k) s' = (s', Ok (Some v)).
Proof.
  intros Hput. unfold get, gets. do 2 f_equal.
  destruct (put_cases k v s)
    as [[_ Heq]|(_ & _ & [(k0 & rest & _ & _ & Heq)
                          |[(k0 & rest & _ & _ & Heq)|[_ Heq]]])];
    rewrite Heq in Hput; try done;
    injection Hput as <-; cbn; by rewrite lookup_insert_eq.
Qed.

(** X3. A [put] that returns normally removes at most one entry, the one at
    the front of [order], and never silently: either nothing is printed and
    every other key keeps its item, or one line [DISCARD] is printed for the
    front of [order], that key is gone, and every key other than it and the
    key put keeps its item. *)
Theorem put_keeps_other_keys (k : K) (v : V) (s s' : FIFOCache K V) :
  put MAX_ITEMS (Some k) (Some v) s = (s', Ok tt) →
  (stdout s' = stdout s
   ∧ ∀ j, j ≠ k → cache_data s' !! j = cache_data s !! j)
  ∨ (∃ k0,
       head (order s) = Some k0
       ∧ stdout s' = stdout s ++ [k0]
       ∧ k0 ≠ k
       ∧ cache_data s' !! k0 = None
       ∧ ∀ j, j ≠ k → j ≠ k0 → cache_data s' !! j = cache_data s !! j).
Proof.
  intros Hput.
  destruct (put_cases k v s)
    as [[_ Heq]|(Hk & _ & [(k0 & rest & Hord & Hk0 & Heq)
                           |[(k0 & rest & _ & _ & Heq)|[_ Heq]]])];
    rewrite Heq in Hput; try done; injection Hput as <-; cbn.
  - left. split; [done|]. intros j Hj. by rewrite lookup_insert_ne.
  - right. exists k0.
    assert (k0 ≠ k) as Hne.
    { intros ->. rewrite Hk in Hk0. by destruct Hk0. }
    rewrite Hord. split_and!; [done..| |].
    + by rewrite lookup_insert_ne, lookup_delete_eq.
    + intros j Hj Hj0. by rewrite lookup_insert_ne, lookup_delete_ne.
Qed.


(** The state of a cache after pairs with distinct keys were put into a
    fresh one: the last [MAX_ITEMS] of them are in, the others were
    discarded in the order of their insertion. *)
Lemma put_all_distinct (kvs : list (K * V)) :
  0 < MAX_ITEMS →
  NoDup kvs.*1 →
  put_all MAX_ITEMS kvs init
  = ({| cache_data := list_to_map (lastn (Z.to_nat MAX_ITEMS) kvs);
        order := (lastn (Z.to_nat MAX_ITEMS) kvs).*1;
        stdout := (take (length kvs - Z.to_nat MAX_ITEMS) kvs).*1 |}, Ok tt).
Proof.
  intros Hcap. induction kvs as [|[k v] l IH] using rev_ind; intros Hnd.
  { done. }
  rewrite fmap_app in Hnd. apply NoDup_app in Hnd as (Hnd & Hk & _).
  assert (k ∉ l.*1) as Hkl.
  { intros Hin. apply (Hk _ Hin). cbn. left. }
  rewrite put_all_app, IH by done. rewrite put_all_cons.
  unfold lastn. rewrite length_app. cbn [length].
  set (M := Z.to_nat MAX_ITEMS) in *.
  destruct (decide (length l < M)%nat) as [Hroom|Hfull].
  - replace (length l - M)%nat with 0%nat by lia.
    replace (length l + 1 - M)%nat with 0%nat by lia.
    rewrite !drop_0, !take_0. rewrite put_no_evict.
    2:{ right. cbn. rewrite map_size_list_to_map by done. lia. }
    cbn. by rewrite list_to_map_snoc, fmap_app.
  - set (d := (length l - M)%nat) in *.
    replace (length l + 1 - M)%nat with (S d) by lia.
    destruct (lookup_lt_is_Some_2 l d) as [[k0 v0] Hd]; [lia|].
    rewrite (drop_S l (k0, v0) d) by done.
    assert (NoDup (k0 :: (drop (S d) l).*1) ∧ k ∉ (drop (S d) l).*1)
      as [[Hk0 Hrest]%NoDup_cons Hkrest].
    { rewrite <-(take_drop d l), (drop_S l (k0, v0) d), fmap_app in Hnd, Hkl
        by done.
      apply NoDup_app in Hnd as (_ & _ & Hnd). split; [done|].
      intros Hin. apply Hkl, elem_of_app. right. cbn. by right. }
    assert (k0 ≠ k) as Hne.
    { intros ->. apply Hkl. apply list_elem_of_fmap. exists (k, v0).
      split; [done|]. by apply list_elem_of_lookup_2 with d. }
    rewrite (put_evict MAX_ITEMS k v _ k0 (drop (S d) l).*1); cbn.
    + rewrite delete_insert_id by (by apply not_elem_of_list_to_map_1).
      rewrite drop_app_le, take_app_le by lia.
      rewrite (take_S_r l d (k0, v0)) by done.
      by rewrite list_to_map_snoc, !fmap_app.
    + rewrite lookup_insert_ne by done. by apply not_elem_of_list_to_map_1.
    + rewrite map_size_insert_None by (by apply not_elem_of_list_to_map_1).
      rewrite map_size_list_to_map by done. rewrite length_drop. lia.
    + done.
    + by rewrite lookup_insert_eq.
Qed.

(** X5. First in, first out: when pairs with distinct keys, however many, are
    put into a fresh cache of capacity at least one, no call raises, the
    last [MAX_ITEMS] pairs are in the cache, and the keys of all the earlier
    pairs were discarded, in the order in which they were inserted. *)
Theorem put_distinct_keys_is_fifo (kvs : list (K * V)) :
  0 < MAX_ITEMS →
  NoDup kvs.*1 →
  ∃ s, put_all MAX_ITEMS kvs init = (s, Ok tt)
       ∧ cache_data s = list_to_map (lastn (Z.to_nat MAX_ITEMS) kvs)
       ∧ stdout s = take (length kvs - Z.to_nat MAX_ITEMS) kvs.*1.
Proof.
  intros Hcap Hnd. eexists. split; [by apply put_all_distinct|].
  split; [done|]. cbn. apply fmap_take.
Qed.

End fifo_cache.

Section runs.
Local Open Scope string_scope.

Lemma reachable_within_capacity_witness :
  let s := foldl (exec 2) init some_calls in
  ((0 ≤ 2)%Z ∧ reachable 2 s)
  ∧ (Z.of_nat (size (cache_data s)) ≤ 2)%Z.
Proof.
  cbv zeta.
  assert (reachable 2 (foldl (exec 2) init some_calls)) as Hreach.
  { by exists some_calls. }
  assert (0 ≤ 2)%Z as Hcap by lia.
  split; [by split|].
  exact (reachable_within_capacity 2 _ Hcap Hreach).
Defined.

Lemma put_then_get_witness :
  let s := (put_all 4 overflow_run init).1 in
  let s' := (put 4 (Some "F") (Some 6%Z) s).1 in
  put 4 (Some "F") (Some 6%Z) s = (s', Ok tt)
  ∧ get (Some "F") s' = (s', Ok (Some 6%Z)).
Proof.
  cbv zeta.
  assert (put 4 (Some "F") (Some 6%Z) (put_all 4 overflow_run init).1
          = ((put 4 (Some "F") (Some 6%Z) (put_all 4 overflow_run init).1).1,
             Ok tt)) as Hput by reflexivity.
  split; [exact Hput|].
  exact (put_then_get 4 "F" 6%Z _ _ Hput).
Defined.

End runs.
End FIFOMore.

(** ** 0x01-caching/0-basic_cache.py *)

Module BasicFacts.
Import Basic.

Section basic_cache.
Context {K V : Type} `{Countable K}.

Lemma put_each_cons (key : option K) (item : option V)
      (calls : list (option K * option V)) (s : BasicCache K V) :
  put_each ((key, item) :: calls) s = put_each calls (put key item s).1.
Proof. by destruct key, item. Qed.

Lemma put_each_app (calls1 calls2 : list (option K * option V))
      (s : BasicCache K V) :
  put_each (calls1 ++ calls2) s = put_each calls2 (put_each calls1 s).1.
Proof.
  revert s. induction calls1 as [|[key item] calls1 IH]; intros s; [done|].
  by rewrite <-app_comm_cons, !put_each_cons, IH.
Qed.

(** [put] never raises, whatever the size of the cache. *)
Lemma put_each_returns (calls : list (option K * option V))
      (s : BasicCache K V) :
  (put_each calls s).2 = Ok tt.
Proof.
  revert s. induction calls as [|[key item] calls IH]; intros s; [done|].
  by rewrite put_each_cons.
Qed.

Lemma put_each_eq (calls : list (option K * option V)) (s : BasicCache K V) :
  put_each calls s = ((put_each calls s).1, Ok tt).
Proof.
  rewrite <-(put_each_returns calls s). by destruct (put_each calls s).
Qed.

(** Calls that do not put the key [k] leave its entry as it is. *)
Lemma put_each_other_keys (calls : list (option K * option V)) (k : K)
      (s : BasicCache K V) :
  (∀ v, (Some k, Some v) ∉ calls) →
  cache_data (put_each calls s).1 !! k = cache_data s !! k.
Proof.
  revert s. induction calls as [|[key item] calls IH]; intros s Hk; [done|].
  rewrite put_each_cons, IH.
  2:{ intros v Hin. apply (Hk v). by right. }
  destruct key as [k'|], item as [v'|]; try done. cbn.
  apply lookup_insert_ne. intros ->. apply (Hk v'). left.
Qed.

(** X6. The cache is a dictionary in which the last [put] of a key wins:
    after any calls of [put] (arguments that are [None] included), [get] of a
    key returns the item of the last call that put this key with an item that
    is not [None]; no call raises. *)
Theorem put_each_last_wins (calls1 calls2 : list (option K * option V))
        (k : K) (v : V) (s : BasicCache K V) :
  (∀ v', (Some k, Some v') ∉ calls2) →
  ∃ s', put_each (calls1 ++ (Some k, Some v) :: calls2) s = (s', Ok tt)
        ∧ get (Some k) s' = (s', Ok (Some v)).
Proof.
  intros Hlast.
  eexists. split; [apply put_each_eq|].
  unfold get, gets. do 2 f_equal.
  rewrite put_each_app, put_each_cons, put_each_other_keys by done.
  cbn. apply lookup_insert_eq.
Qed.

(** X7. Nothing is ever evicted, there is no capacity: after pairs with
    distinct keys, however many, are put into a fresh cache, all of them are
    in it. *)
Theorem put_each_keeps_all (kvs : list (K * V)) :
  NoDup kvs.*1 →
  ∃ s', put_each ((λ kv, (Some kv.1, Some kv.2)) <$> kvs) init = (s', Ok tt)
        ∧ cache_data s' = list_to_map kvs
        ∧ size (cache_data s') = length kvs.
Proof.
  intros Hnd.
  assert (∀ (done : list (K * V)) (s : BasicCache K V),
            NoDup (done ++ kvs).*1 →
            cache_data s = list_to_map done →
            cache_data
              (put_each ((λ kv, (Some kv.1, Some kv.2)) <$> kvs) s).1
            = list_to_map (done ++ kvs)) as Hgen.
  { clear Hnd. induction kvs as [|[k v] kvs IH]; intros done s Hnd Hs.
    - by rewrite app_nil_r.
    - rewrite fmap_cons, put_each_cons. cbn [fst snd put].
      rewrite (cons_middle (k, v) done kvs), (assoc_L (++)) in Hnd |- *.
      apply IH; [done|]. cbn. rewrite Hs. symmetry. apply list_to_map_snoc.
      rewrite fmap_app in Hnd. apply NoDup_app in Hnd as (Hnd & _ & _).
      rewrite fmap_app in Hnd. apply NoDup_app in Hnd as (_ & Hk & _).
      intros Hin. apply (Hk _ Hin). cbn. left. }
  eexists. split; [apply put_each_eq|].
  rewrite (Hgen [] init) by done. cbn [app]. split; [done|].
  by apply map_size_list_to_map.
Qed.

End basic_cache.

Section runs.
Local Open Scope string_scope.

Lemma put_each_last_wins_witness :
  (∀ v', (Some "A", Some v') ∉ [(Some "B", Some 3%Z); (Some "A", None)])
  ∧ ∃ s', put_each ([(Some "A", Some 1%Z); (None, Some 7%Z)]
                    ++ (Some "A", Some 2%Z)
                       :: [(Some "B", Some 3%Z); (Some "A", None)]) init
          = (s', Ok tt)
          ∧ get (Some "A") s' = (s', Ok (Some 2%Z)).
Proof.
  assert (∀ v' : Z,
            (Some "A", Some v') ∉ [(Some "B", Some 3%Z); (Some "A", None)])
    as Hlast.
  { intros v' Hin. repeat (apply elem_of_cons in Hin as [Hin|Hin]; [done|]).
    by apply elem_of_nil in Hin. }
  split; [exact Hlast|].
  exact (put_each_last_wins [(Some "A", Some 1%Z); (None, Some 7%Z)] _
           "A" 2%Z init Hlast).
Defined.

Lemma put_each_keeps_all_witness :
  NoDup (FIFO.overflow_run).*1
  ∧ ∃ s', put_each ((λ kv, (Some kv.1, Some kv.2)) <$> FIFO.overflow_run) init
          = (s', Ok tt)
          ∧ cache_data s' = list_to_map FIFO.overflow_run
          ∧ size (cache_data s') = length FIFO.overflow_run.
Proof.
  assert (NoDup (FIFO.overflow_run).*1) as Hnd.
  { apply (bool_decide_unpack _). vm_compute. exact I. }
  split; [exact Hnd|].
  exact (put_each_keeps_all FIFO.overflow_run Hnd).
Defined.

End runs.
End BasicFacts.

(** ** 0x02-i18n/app.py *)

Module I18nFacts.
Import I18n.
Local Open Scope string_scope.

Lemma supported_spec (o : option string) :
  supported o = true ↔ ∃ l, o = Some l ∧ l ∈ LANGUAGES.
Proof.
  destruct o as [l|]; cbn.
  - rewrite andb_true_iff, !bool_decide_eq_true. split.
    + intros [_ Hin]. by exists l.
    + intros (l' & [= <-] & Hin). split; [|done].
      intros ->. unfold LANGUAGES in Hin.
      repeat (apply elem_of_cons in Hin as [?|Hin]; [done|]).
      by apply elem_of_nil in Hin.
  - split; [done|]. by intros (? & ? & _).
Qed.

(** X8. Whatever the request, the user and the browser say, [get_locale]
    returns a language of [LANGUAGES], never [None]. *)
Theorem get_locale_supported (url_locale : option string)
        (g_user : option user) (best_match : option string) :
  ∃ l, get_locale url_locale g_user best_match = Some l ∧ l ∈ LANGUAGES.
Proof.
  unfold get_locale.
  set (user_locale := match g_user with
                      | Some u => if decide (u = ∅) then None
                                  else u !! "locale"
                      | None => None
                      end).
  do 3 (rewrite filter_cons;
          destruct (decide _) as [Ho|_];
          [apply supported_spec in Ho as (l & Heq & Hl); by exists l|]).
  rewrite filter_cons, decide_True by done. exists "en".
  split; [done|]. unfold LANGUAGES. left.
Qed.

(** The locale of the URL wins: when [request.args] has a [locale]
    that is a language of [LANGUAGES], [get_locale] returns it, whatever
    the user and the browser prefer. *)
Theorem get_locale_url_first (l : string) (g_user : option user)
        (best_match : option string) :
  l ∈ LANGUAGES →
  get_locale (Some l) g_user best_match = Some l.
Proof.
  intros Hl. unfold get_locale.
  rewrite filter_cons, decide_True; [done|]. apply supported_spec. by exists l.
Qed.

(** X9. A user of [users] who is logged in gets the locale of [users],
    whatever the browser prefers, when the URL has no [locale] or one that
    is not a language of [LANGUAGES]. *)
Theorem get_locale_of_user (user_id : pyval) (u : user)
        (url_locale best_match : option string) :
  get_user user_id = Some u →
  supported url_locale = false →
  get_locale url_locale (Some u) best_match = u !! "locale"
  ∧ is_Some (u !! "locale").
Proof.
  unfold get_user. intros Hu Hurl.
  destruct (as_int user_id) as [i|]; [|done].
  assert (u !! "locale" = Some "fr" ∨ u !! "locale" = Some "en") as Hloc.
  { unfold users in Hu.
    apply lookup_insert_Some in Hu as [[_ <-]|[_ Hu]]; [by left|].
    apply lookup_singleton_Some in Hu as [_ <-]. by right. }
  assert (u ≠ ∅) as Hne.
  { intros ->. destruct Hloc as [Hl|Hl]; vm_compute in Hl; discriminate. }
  split; [|destruct Hloc as [-> | ->]; by eexists].
  unfold get_locale.
  rewrite filter_cons, decide_False by (by rewrite Hurl).
  rewrite (decide_False (P := u = ∅)) by done.
  destruct Hloc as [-> | ->]; by rewrite filter_cons, decide_True by done.
Qed.

Lemma get_locale_of_user_witness :
  let u : user := {[ "name" := "Balou"; "locale" := "fr";
                     "timezone" := "Europe/Paris" ]} in
  (get_user (PyInt 1) = Some u ∧ supported (Some "de") = false)
  ∧ get_locale (Some "de") (Some u) (Some "en") = u !! "locale"
  ∧ is_Some (u !! "locale").
Proof.
  cbv zeta.
  assert (get_user (PyInt 1)
          = Some ({[ "name" := "Balou"; "locale" := "fr";
                     "timezone" := "Europe/Paris" ]} : user)) as Hu
    by reflexivity.
  assert (supported (Some "de") = false) as Hurl by reflexivity.
  split; [by split|].
  exact (get_locale_of_user (PyInt 1) _ (Some "de") (Some "en") Hu Hurl).
Defined.

End I18nFacts.

(** ** The page servers: pages, links and the cached data set *)

Module PaginationMore.

(** *** [get_page] of the three servers, on valid arguments *)

Lemma assert_isinstance_int_positive_value {S} (v : pyval) (z : Z) (s : S) :
  as_int v = Some z → 0 < z →
  assert_isinstance_int_positive v s = (s, Ok z).
Proof.
  intros Hv Hz. unfold assert_isinstance_int_positive.
  by rewrite Hv, (proj2 (Z.ltb_lt _ _) Hz).
Qed.

(** The slice that [get_page] takes, as a part of the data set. *)
Lemma page_slice (d : list row) (p n : Z) :
  0 < p → 0 < n →
  (if Z.of_nat (length d) <=? (p - 1) * n then []
   else py_slice d ((p - 1) * n) (p * n))
  = take (Z.to_nat n) (drop (Z.to_nat ((p - 1) * n)) d).
Proof.
  intros Hp Hn.
  destruct (Z.leb_spec (Z.of_nat (length d)) ((p - 1) * n)).
  - rewrite drop_ge by lia. by rewrite take_nil.
  - rewrite py_slice_nonneg by nia. do 2 f_equal. lia.
Qed.

Lemma py_slice_page (d : list row) (p n : Z) :
  0 < p → 0 < n →
  py_slice d ((p - 1) * n) (p * n)
  = take (Z.to_nat n) (drop (Z.to_nat ((p - 1) * n)) d).
Proof.
  intros Hp Hn. rewrite py_slice_nonneg by nia. do 2 f_equal. lia.
Qed.

Lemma simple_get_page_value (DATA_FILE : list row) (page page_size : pyval)
      (p n : Z) (s s' : SimplePagination.Server) (d : list row) :
  SimplePagination.dataset DATA_FILE s = (s', Ok d) →
  as_int page = Some p → 0 < p →
  as_int page_size = Some n → 0 < n →
  SimplePagination.get_page DATA_FILE page page_size s
  = (s', Ok (take (Z.to_nat n) (drop (Z.to_nat ((p - 1) * n)) d))).
Proof.
  intros Hd Hpage Hp Hsize Hn. unfold SimplePagination.get_page.
  rewrite (bind_ok _ _ _ _ _
             (assert_isinstance_int_positive_value page p s Hpage Hp)).
  rewrite (bind_ok _ _ _ _ _
             (assert_isinstance_int_positive_value page_size n s Hsize Hn)).
  rewrite (bind_ok _ _ _ _ _ Hd). unfold SimplePagination.index_range.
  cbv zeta beta iota.
  replace ((p - 1) * n + n) with (p * n) by lia.
  rewrite <-page_slice by done. by destruct (_ <=? _).
Qed.

Lemma hyper_get_page_value (DATA_FILE : list row) (page page_size : pyval)
      (p n : Z) (s s' : HypermediaPagination.Server) (d : list row) :
  HypermediaPagination.dataset DATA_FILE s = (s', Ok d) →
  as_int page = Some p → 0 < p →
  as_int page_size = Some n → 0 < n →
  HypermediaPagination.get_page DATA_FILE page page_size s
  = (s', Ok (take (Z.to_nat n) (drop (Z.to_nat ((p - 1) * n)) d))).
Proof.
  intros Hd Hpage Hp Hsize Hn. unfold HypermediaPagination.get_page.
  rewrite (bind_ok _ _ _ _ _
             (assert_isinstance_int_positive_value page p s Hpage Hp)).
  rewrite (bind_ok _ _ _ _ _
             (assert_isinstance_int_positive_value page_size n s Hsize Hn)).
  unfold HypermediaPagination.index_range. cbv zeta beta iota.
  rewrite (bind_ok _ _ _ _ _ Hd).
  rewrite <-page_slice by done. by destruct (_ <=? _).
Qed.

Lemma helper_get_page_value (DATA_FILE : list row) (p n : Z)
      (s s' : HelperPagination.Server) (d : list row) :
  HelperPagination.dataset DATA_FILE s = (s', Ok d) →
  0 < p → 0 < n →
  HelperPagination.get_page DATA_FILE (PyInt p) (PyInt n) s
  = (s', Ok (take (Z.to_nat n) (drop (Z.to_nat ((p - 1) * n)) d))).
Proof.
  intros Hd Hp Hn.
  unfold HelperPagination.get_page,
    HelperPagination.assert_positive_integer_type,
    assert_type_is_int_positive.
  rewrite !(proj2 (Z.ltb_lt _ _)) by done. rewrite !bind_ret.
  rewrite (bind_ok _ _ _ _ _ Hd).
  rewrite HelperPaginationFacts.index_range_closed_form by done.
  cbv beta iota. by rewrite py_slice_page.
Qed.

(** X10. For a page number of at least one, the loop of [index_range] in
    0-simple_helper_function.py computes the same bounds as the closed forms
    of the two other [index_range]: [((page - 1) * page_size,
    page * page_size)]. *)
Theorem index_range_agree (page page_size : Z) :
  0 < page →
  HelperPagination.index_range page page_size
  = ((page - 1) * page_size, page * page_size)
  ∧ SimplePagination.index_range page page_size
    = ((page - 1) * page_size, page * page_size)
  ∧ HypermediaPagination.index_range page page_size
    = ((page - 1) * page_size, page * page_size).
Proof.
  intros Hpage. split; [by apply HelperPaginationFacts.index_range_closed_form|].
  unfold SimplePagination.index_range, HypermediaPagination.index_range.
  split; f_equal; lia.
Qed.

Section simple.
Variable DATA_FILE : list row.
Import SimplePagination.

(** X11. [get_page] of 1-simple_pagination.py returns as many rows as are
    left from the start of the page, and [page_size] at most: none, and no
    error, when the page starts at or after the end of the data set. *)
Theorem get_page_length (s s' : Server) (d : list row) (page page_size : Z) :
  dataset DATA_FILE s = (s', Ok d) →
  0 < page → 0 < page_size →
  ∃ rows,
    get_page DATA_FILE (PyInt page) (PyInt page_size) s = (s', Ok rows)
    ∧ Z.of_nat (length rows)
      = Z.min page_size
          (Z.max 0 (Z.of_nat (length d) - (page - 1) * page_size)).
Proof.
  intros Hd Hp Hn. eexists. split.
  { by apply (simple_get_page_value _ _ _ page page_size s s' d). }
  rewrite length_take, length_drop. nia.
Qed.

(** X12. The row [i] of the page [page] is the row
    [(page - 1) * page_size + i] of the data set, for [i] below
    [page_size]; the page has no other row. *)
Theorem get_page_lookup (s s' : Server) (d : list row) (page page_size : Z)
        (i : nat) :
  dataset DATA_FILE s = (s', Ok d) →
  0 < page → 0 < page_size →
  ∃ rows,
    get_page DATA_FILE (PyInt page) (PyInt page_size) s = (s', Ok rows)
    ∧ rows !! i
      = if decide (Z.of_nat i < page_size)
        then d !! (Z.to_nat ((page - 1) * page_size) + i)%nat
        else None.
Proof.
  intros Hd Hp Hn. eexists. split.
  { by apply (simple_get_page_value _ _ _ page page_size s s' d). }
  case_decide.
  - rewrite lookup_take_lt by lia. apply lookup_drop.
  - apply lookup_take_ge. lia.
Qed.

End simple.

(** X13. On a file with a header line, the three [get_page] return the same
    page for a valid page number and page size: the rows from
    [(page - 1) * page_size] on, [page_size] of them at most. *)
Theorem get_page_agree (header : row) (rows : list row) (page page_size : Z) :
  0 < page → 0 < page_size →
  let slice := take (Z.to_nat page_size)
                    (drop (Z.to_nat ((page - 1) * page_size)) rows) in
  (SimplePagination.get_page (header :: rows) (PyInt page) (PyInt page_size)
     SimplePagination.init).2 = Ok slice
  ∧ (HypermediaPagination.get_page (header :: rows) (PyInt page)
       (PyInt page_size) HypermediaPagination.init).2 = Ok slice
  ∧ (HelperPagination.get_page (header :: rows) (PyInt page)
       (PyInt page_size) HelperPagination.init).2 = Ok slice.
Proof.
  intros Hp Hn. cbv zeta. split_and!.
  - by rewrite (simple_get_page_value _ _ _ page page_size _
                  {| SimplePagination.__dataset := Some rows |} rows).
  - by rewrite (hyper_get_page_value _ _ _ page page_size _
                  {| HypermediaPagination.__dataset := Some rows |} rows).
  - by rewrite (helper_get_page_value _ page page_size _
                  {| HelperPagination.__dataset := Some rows |} rows).
Qed.

(** X14. On a file with no line at all, [get_page] of 1-simple_pagination.py
    and of 2-hypermedia_pagination.py raises [StopIteration] for valid
    arguments ([next(reader)] finds no header), while [get_page] of
    0x00-pagination/2-hypermedia_pagination.py returns the empty page. *)
Theorem get_page_empty_file (page page_size : Z) :
  0 < page → 0 < page_size →
  SimplePagination.get_page [] (PyInt page) (PyInt page_size)
    SimplePagination.init
  = (SimplePagination.init, Raise StopIteration)
  ∧ HelperPagination.get_page [] (PyInt page) (PyInt page_size)
      HelperPagination.init
    = (HelperPagination.init, Raise StopIteration)
  ∧ HypermediaPagination.get_page [] (PyInt page) (PyInt page_size)
      HypermediaPagination.init
    = ({| HypermediaPagination.__dataset := Some [] |}, Ok []).
Proof.
  intros Hp Hn. split_and!.
  - unfold SimplePagination.get_page, assert_isinstance_int_positive, as_int.
    by rewrite !(proj2 (Z.ltb_lt _ _)) by done.
  - unfold HelperPagination.get_page,
      HelperPagination.assert_positive_integer_type,
      assert_type_is_int_positive.
    by rewrite !(proj2 (Z.ltb_lt _ _)) by done.
  - rewrite (hyper_get_page_value _ _ _ page page_size _
               {| HypermediaPagination.__dataset := Some [] |} []) by done.
    by rewrite drop_nil, take_nil.
Qed.

(** X15. [True] as page number: [get_page] of 2-hypermedia_pagination.py
    rejects it ([type(value) is int]), and [get_page] of
    1-simple_pagination.py takes it for page 1 ([isinstance(page, int)]). *)
Theorem get_page_True (DATA_FILE : list row) (page_size : Z)
        (h : HelperPagination.Server) (s s' : SimplePagination.Server)
        (d : list row) :
  SimplePagination.dataset DATA_FILE s = (s', Ok d) →
  0 < page_size →
  HelperPagination.get_page DATA_FILE (PyBool true) (PyInt page_size) h
  = (h, Raise AssertionError)
  ∧ SimplePagination.get_page DATA_FILE (PyBool true) (PyInt page_size) s
    = (s', Ok (take (Z.to_nat page_size) d)).
Proof.
  intros Hd Hn. split; [done|].
  by rewrite (simple_get_page_value _ _ _ 1 page_size s s' d).
Qed.

(** X26. Where the arguments are checked first, a call with a page number
    or a page size that is not a positive integer raises [AssertionError]
    and leaves the server as it is, the data set not loaded: [get_page] of
    1-simple_pagination.py, and [get_page] and [get_hyper] of
    0x00-pagination/2-hypermedia_pagination.py. *)
Theorem invalid_arguments_fail_fast (DATA_FILE : list row)
        (page page_size : pyval) (s : SimplePagination.Server)
        (h : HypermediaPagination.Server) :
  positive_int page && positive_int page_size = false →
  SimplePagination.get_page DATA_FILE page page_size s
  = (s, Raise AssertionError)
  ∧ HypermediaPagination.get_page DATA_FILE page page_size h
    = (h, Raise AssertionError)
  ∧ HypermediaPagination.get_hyper DATA_FILE page page_size h
    = (h, Raise AssertionError).
Proof.
  intros Hbad. split_and!.
  - by apply simple_get_page_fails_fast.
  - by apply HypermediaPaginationFacts.get_page_fails_fast.
  - by apply HypermediaPaginationFacts.get_hyper_fails_fast.
Qed.

Section hypermedia.
Import HypermediaPagination HypermediaPaginationFacts.

Lemma get_hyper_value (DATA_FILE : list row) (page page_size : pyval)
      (p n : Z) (s s' : Server) (d : list row) :
  dataset DATA_FILE s = (s', Ok d) →
  as_int page = Some p → 0 < p →
  as_int page_size = Some n → 0 < n →
  get_hyper DATA_FILE page page_size s
  = (s', Ok (let rows := take (Z.to_nat n)
                              (drop (Z.to_nat ((p - 1) * n)) d) in
             {| page_size := Z.of_nat (length rows);
                page := page;
                data := rows;
                next_page := if p * n <? Z.of_nat (length d)
                             then Some (p + 1) else None;
                prev_page := if 1 <? p then Some (p - 1) else None;
                total_pages :=
                  Qceiling (inject_Z (Z.of_nat (length d)) / inject_Z n) |})).
Proof.
  intros Hd Hpage Hp Hsize Hn.
  assert (dataset DATA_FILE s' = (s', Ok d)) as Hd'.
  { destruct (dataset_returns DATA_FILE s) as (s1 & d1 & H1 & H2).
    rewrite Hd in H1. by injection H1 as <- <-. }
  unfold get_hyper.
  rewrite (bind_ok _ _ _ _ _
             (hyper_get_page_value _ _ _ p n s s' d Hd Hpage Hp Hsize Hn)).
  rewrite (bind_ok _ _ _ _ _ Hd').
  unfold int_operand. rewrite Hsize, Hpage, bind_ret.
  unfold ceil_truediv. rewrite (proj2 (Z.eqb_neq n 0)) by lia.
  rewrite !bind_ret. by rewrite (bind_ok _ _ _ _ _ Hd').
Qed.



(** X17. The file is read once: a server that has loaded its data set
    answers [get_hyper] from it, whatever the file holds now and whatever
    the arguments are, and stays as it is. *)
Theorem get_hyper_on_loaded_server (DATA_FILE DATA_FILE' : list row)
        (page page_size : pyval) (s : Server) (d : list row) :
  __dataset s = Some d →
  get_hyper DATA_FILE page page_size s = get_hyper DATA_FILE' page page_size s
  ∧ (get_hyper DATA_FILE page page_size s).1 = s.
Proof.
  intros Hs.
  assert (∀ file, dataset file s = (s, Ok d)) as Hd.
  { intros file. unfold dataset, bind, gets. by rewrite Hs. }
  destruct (positive_int page && positive_int page_size) eqn:Hvalid.
  - apply andb_prop in Hvalid as [Hpage Hsize].
    destruct (assert_isinstance_int_positive_passes page s Hpage)
      as (p & Hp & Hp0 & _).
    destruct (assert_isinstance_int_positive_passes page_size s Hsize)
      as (n & Hn & Hn0 & _).
    by rewrite !(get_hyper_value _ _ _ p n s s d).
  - by rewrite !get_hyper_fails_fast.
Qed.

End hypermedia.

Section helper.
Variable DATA_FILE : list row.
Import HelperPagination.

(** X18. [get_hyper] of 2-hypermedia_pagination.py, for a valid page number
    and page size: the field [page_size] is the number of rows returned,
    never more than asked for; [next_page] is the next page number when the
    page is before [total_pages], and [None] from there on; [prev_page] is
    [None] on page 1 only. *)
Theorem helper_get_hyper_fields (s s' : Server) (d : list row)
        (page page_size : Z) :
  dataset DATA_FILE s = (s', Ok d) →
  0 < page → 0 < page_size →
  ∃ r,
    get_hyper DATA_FILE (PyInt page) (PyInt page_size) s = (s', Ok r)
    ∧ data r = take (Z.to_nat page_size)
                    (drop (Z.to_nat ((page - 1) * page_size)) d)
    ∧ HelperPagination.page_size r = Z.of_nat (length (data r))
    ∧ HelperPagination.page_size r ≤ page_size
    ∧ next_page r
      = (if decide (page < total_pages r) then Some (page + 1) else None)
    ∧ prev_page r = (if decide (page = 1) then None else Some (page - 1)).
Proof.
  intros Hd Hp Hn.
  assert (dataset DATA_FILE s' = (s', Ok d)) as Hd'.
  { revert Hd. destruct s as [[rows|]]; unfold dataset, bind, gets; cbn.
    - by intros [= <- <-].
    - destruct DATA_FILE; cbn; [done|]. by intros [= <- <-]. }
  eexists. split.
  { unfold get_hyper. rewrite (bind_ok _ _ _ _ _ Hd).
    unfold int_operand, as_int, floordiv. rewrite bind_ret.
    rewrite (proj2 (Z.eqb_neq page_size 0)) by lia. rewrite bind_ret.
    cbv zeta.
    rewrite (bind_ok _ _ _ _ _
               (helper_get_page_value _ page page_size s' s' d Hd' Hp Hn)).
    by rewrite bind_ret. }
  cbn [data HelperPagination.page_size next_page prev_page total_pages].
  set (rows := take _ _).
  assert (Z.of_nat (length rows) ≤ page_size) as Hlen.
  { unfold rows. rewrite length_take. lia. }
  split; [done|]. split_and!.
  - destruct (Z.leb_spec page_size (Z.of_nat (length rows))); lia.
  - destruct (Z.leb_spec page_size (Z.of_nat (length rows))); lia.
  - destruct (Z.leb_spec (page + 1)
                (Z.of_nat (length d) / page_size + 1));
      case_decide; try done; lia.
  - destruct (Z.ltb_spec 1 page); case_decide; try done; lia.
Qed.

End helper.

End PaginationMore.

(** ** 0x00-pagination/3-hypermedia_del_pagination.py: following the pages *)

Module DelPaginationMore.
Import DelPagination DelPaginationFacts.

(** *** The loop, one turn at a time *)

Lemma while_loop_unfold (indexed_data : gmap Z row) (page_size : Z)
      (data : list row) (current_index : Z) :
  while_loop indexed_data page_size data current_index
  = if decide (Z.of_nat (length data) < page_size
               ∧ current_index < Z.of_nat (size indexed_data))
    then while_loop indexed_data page_size
           (match indexed_data !! current_index with
            | Some record => data ++ [record]
            | None => data
            end)
           (current_index + 1)
    else (data, current_index).
Proof. rewrite while_loop_equation_1. by destruct (decide _). Qed.

Lemma live_window_split (indexed_data : gmap Z row) (a b c : Z) :
  a ≤ b ≤ c →
  live_window indexed_data a c
  = live_window indexed_data a b ++ live_window indexed_data b c.
Proof.
  intros Hle. unfold live_window.
  replace (c - a) with ((b - a) + (c - b)) by lia.
  rewrite seqZ_app, omap_app by lia. do 3 f_equal. lia.
Qed.

Lemma live_window_nil (indexed_data : gmap Z row) (a b : Z) :
  b ≤ a → live_window indexed_data a b = [].
Proof. intros Hle. unfold live_window. by rewrite seqZ_nil by lia. Qed.

(** Where the loop stops: it has walked from [current_index] to the index
    it returns, has collected the records it met, and its condition is
    false. *)
Lemma while_loop_stop (indexed_data : gmap Z row) (page_size : Z)
      (data : list row) (current_index : Z) :
  let out := while_loop indexed_data page_size data current_index in
  current_index ≤ out.2
  ∧ out.1 = data ++ live_window indexed_data current_index out.2
  ∧ ¬ (Z.of_nat (length out.1) < page_size
       ∧ out.2 < Z.of_nat (size indexed_data))
  ∧ (out.2 = current_index ∨ out.2 ≤ Z.of_nat (size indexed_data)).
Proof.
  cbv zeta. funelim (while_loop indexed_data page_size data current_index).
  - destruct H as (Hle & Hdata & Hexit & Hbound).
    split; [lia|]. split; [|split; [done|right; lia]].
    rewrite Hdata.
    rewrite (live_window_split indexed_data current_index
               (current_index + 1)) by lia.
    unfold live_window at 2.
    replace (current_index + 1 - current_index) with 1 by lia.
    change (seqZ current_index 1) with [current_index]. csimpl.
    destruct (indexed_data !! current_index); cbn; [|done].
    by rewrite <-(assoc_L (++)).
  - cbn. split; [lia|]. split; [|split; [done|by left]].
    by rewrite live_window_nil, app_nil_r by lia.
Qed.

(** A loop for a larger page goes through the state in which the loop for a
    smaller page stops. *)
Lemma while_loop_resume (indexed_data : gmap Z row) (a b : Z)
      (data : list row) (current_index : Z) :
  a ≤ b →
  while_loop indexed_data b data current_index
  = while_loop indexed_data b
      (while_loop indexed_data a data current_index).1
      (while_loop indexed_data a data current_index).2.
Proof.
  intros Hle. funelim (while_loop indexed_data a data current_index).
  - rewrite (while_loop_unfold indexed_data b data0 current_index).
    rewrite decide_True by lia. by apply H.
  - done.
Qed.

(** Records already collected only shift the page size. *)
Lemma while_loop_prefix (indexed_data : gmap Z row) (page_size : Z)
      (pre data : list row) (current_index : Z) :
  while_loop indexed_data (Z.of_nat (length pre) + page_size) (pre ++ data)
    current_index
  = (pre ++ (while_loop indexed_data page_size data current_index).1,
     (while_loop indexed_data page_size data current_index).2).
Proof.
  funelim (while_loop indexed_data page_size data current_index).
  - rewrite while_loop_unfold, decide_True by (rewrite length_app; lia).
    rewrite <-H. f_equal.
    destruct (indexed_data !! current_index); [|done].
    by rewrite (assoc_L (++)).
  - by rewrite while_loop_unfold, decide_False by (rewrite length_app; lia).
Qed.

(** The records of an untouched snapshot between two positions are the rows
    of the data set between them. *)
Lemma live_window_index_rows (dataset : list row) (n : nat) (a : Z) :
  0 ≤ a → a + Z.of_nat n ≤ Z.of_nat (length dataset) →
  live_window (index_rows dataset) a (a + Z.of_nat n)
  = take n (drop (Z.to_nat a) dataset).
Proof.
  revert a. induction n as [|n IH]; intros a Ha Hn.
  { by rewrite live_window_nil, take_0 by lia. }
  rewrite (live_window_split _ a (a + 1)) by lia.
  replace (a + Z.of_nat (S n)) with (a + 1 + Z.of_nat n) by lia.
  rewrite IH by lia.
  unfold live_window. replace (a + 1 - a) with 1 by lia.
  change (seqZ a 1) with [a]. csimpl.
  rewrite index_rows_lookup, decide_True by lia.
  destruct (lookup_lt_is_Some_2 dataset (Z.to_nat a)) as [x Hx]; [lia|].
  rewrite Hx, (drop_S dataset x (Z.to_nat a)) by done. cbn.
  by replace (Z.to_nat (a + 1)) with (S (Z.to_nat a)) by lia.
Qed.

Section server.
Variable DATA_FILE : list row.

(** A call of [get_hyper_index], seen through the loop. *)
Lemma get_hyper_index_loop (index : option Z) (page_size : Z)
      (s s' : Server) (r : HyperIndex) :
  get_hyper_index DATA_FILE index page_size s = (s', Ok r) →
  ∃ indexed,
    indexed_dataset DATA_FILE s = (s', Ok indexed)
    ∧ indexed_dataset DATA_FILE s' = (s', Ok indexed)
    ∧ data r = (while_loop indexed page_size [] (default 0 index)).1
    ∧ DelPagination.page_size r = Z.of_nat (length (data r))
    ∧ next_index r
      = if (while_loop indexed page_size [] (default 0 index)).2
           <? Z.of_nat (size indexed)
        then Some (while_loop indexed page_size [] (default 0 index)).2
        else None.
Proof.
  intros Hr.
  destruct (indexed_dataset_returns DATA_FILE s)
    as (s1 & indexed & Hidx & Hs1).
  rewrite (get_hyper_index_unfold _ _ _ s s1 indexed) in Hr by done.
  injection Hr as <- <-. exists indexed. split; [done|].
  split; [|done]. unfold indexed_dataset, bind, gets. by rewrite Hs1.
Qed.

(** X19. A start at or beyond the number of entries of the snapshot gives
    the empty page and no next index, not an error. *)
Theorem get_hyper_index_beyond_end (start page_size : Z) (s s' : Server)
        (indexed : gmap Z row) :
  indexed_dataset DATA_FILE s = (s', Ok indexed) →
  Z.of_nat (size indexed) ≤ start →
  get_hyper_index DATA_FILE (Some start) page_size s
  = (s', Ok {| index := Some start; next_index := None;
               page_size := 0; data := [] |}).
Proof.
  intros Hidx Hstart.
  rewrite (get_hyper_index_unfold _ _ _ s s' indexed) by done.
  cbv zeta. rewrite while_loop_unfold, decide_False by lia.
  cbn [fst snd length]. by rewrite (proj2 (Z.ltb_ge _ _)) by lia.
Qed.

(** X20. Following [next_index] makes progress: for a positive page size,
    the next index, when there is one, is after the start of the page. *)
Theorem get_hyper_index_progress (index : option Z) (page_size : Z)
        (s s' : Server) (r : HyperIndex) (n : Z) :
  get_hyper_index DATA_FILE index page_size s = (s', Ok r) →
  next_index r = Some n →
  0 < page_size →
  default 0 index < n.
Proof.
  intros (indexed & _ & _ & _ & _ & Hnext)%get_hyper_index_loop Hn Hps.
  rewrite Hnext in Hn.
  pose proof (while_loop_stop indexed page_size [] (default 0 index)) as Hstop.
  cbv zeta in Hstop. destruct Hstop as (Hle & Hout & Hexit & _).
  destruct (_ <? _) eqn:Hlt in Hn; [|done]. injection Hn as <-.
  apply Z.ltb_lt in Hlt.
  destruct (decide ((while_loop indexed page_size [] (default 0 index)).2
                    = default 0 index)) as [Heq|Hne]; [|lia].
  exfalso. apply Hexit. split; [|done].
  rewrite Hout, Heq, live_window_nil by lia. cbn. lia.
Qed.

(** When the loop stops before the end of the snapshot, it has collected
    [page_size] records. *)
Lemma while_loop_full (indexed : gmap Z row) (page_size start : Z) :
  0 ≤ page_size →
  (while_loop indexed page_size [] start).2 < Z.of_nat (size indexed) →
  Z.of_nat (length (while_loop indexed page_size [] start).1) = page_size.
Proof.
  intros Hps Hlt.
  pose proof (while_loop_stop indexed page_size [] start) as Hstop.
  cbv zeta in Hstop. destruct Hstop as (_ & _ & Hexit & _).
  pose proof (while_loop_data indexed page_size [] start) as Hd.
  cbn [app length] in Hd. rewrite Hd in Hexit |- *.
  rewrite length_take in Hexit |- *. lia.
Qed.

(** X21. A page is short only at the end: when the response has a next
    index, the page has exactly [page_size] records. *)
Theorem get_hyper_index_full_page (index : option Z) (page_size : Z)
        (s s' : Server) (r : HyperIndex) (n : Z) :
  get_hyper_index DATA_FILE index page_size s = (s', Ok r) →
  next_index r = Some n →
  0 ≤ page_size →
  DelPagination.page_size r = page_size.
Proof.
  intros (indexed & _ & _ & Hdata & Hsize & Hnext)%get_hyper_index_loop Hn Hps.
  rewrite Hnext in Hn.
  destruct (_ <? _) eqn:Hlt in Hn; [|done]. apply Z.ltb_lt in Hlt.
  rewrite Hsize, Hdata. by apply while_loop_full.
Qed.

(** X22. Pages chain: a page of [a] records followed by the page of [b]
    records from its [next_index] is the page of [a + b] records from the
    same start; no record is skipped or returned twice between them, and the
    next index after both is the same. *)
Theorem get_hyper_index_chain (index : option Z) (a b : Z)
        (s s' : Server) (r1 : HyperIndex) (n : Z) :
  get_hyper_index DATA_FILE index a s = (s', Ok r1) →
  next_index r1 = Some n →
  0 ≤ a → 0 ≤ b →
  ∃ r2,
    get_hyper_index DATA_FILE (Some n) b s' = (s', Ok r2)
    ∧ get_hyper_index DATA_FILE index (a + b) s
      = (s', Ok {| index := index;
                   next_index := next_index r2;
                   page_size := DelPagination.page_size r1
                                + DelPagination.page_size r2;
                   data := data r1 ++ data r2 |}).
Proof.
  intros Hr1 Hn Ha Hb.
  destruct (get_hyper_index_loop _ _ _ _ _ Hr1)
    as (indexed & Hidx & Hidx' & Hdata & Hsize & Hnext).
  rewrite Hnext in Hn.
  destruct (_ <? _) eqn:Hlt in Hn; [|done]. injection Hn as Hn.
  pose proof (while_loop_full indexed a (default 0 index) Ha
                (proj1 (Z.ltb_lt _ _) Hlt)) as Hfull.
  rewrite <-Hdata in Hfull.
  eexists. split.
  { by apply get_hyper_index_unfold. }
  rewrite (get_hyper_index_unfold _ _ _ s s' indexed) by done.
  cbv zeta. cbn [next_index DelPagination.page_size data].
  change (match index with Some i => i | None => 0 end)
    with (default 0 index).
  rewrite (while_loop_resume indexed a (a + b)) by lia.
  rewrite <-Hdata, Hn.
  pose proof (while_loop_prefix indexed b (data r1) [] n) as Hpre.
  rewrite app_nil_r in Hpre.
  replace (Z.of_nat (length (data r1)) + b) with (a + b) in Hpre by lia.
  rewrite Hpre. cbn [fst snd]. rewrite length_app. do 3 f_equal. lia.
Qed.

(** The page of a fresh server, which pages over the snapshot it takes
    itself. *)
Lemma get_hyper_index_fresh_page (start page_size : Z) :
  0 ≤ start → 0 ≤ page_size →
  get_hyper_index DATA_FILE (Some start) page_size init
  = ({| __dataset := Some (drop 1 DATA_FILE);
        __indexed_dataset := Some (index_rows (drop 1 DATA_FILE)) |},
     Ok (let rows := take (Z.to_nat page_size)
                          (drop (Z.to_nat start) (drop 1 DATA_FILE)) in
         {| index := Some start;
            next_index :=
              if start + page_size <? Z.of_nat (length (drop 1 DATA_FILE))
              then Some (start + page_size) else None;
            page_size := Z.of_nat (length rows);
            data := rows |})).
Proof.
  intros Hstart Hps. set (rows := drop 1 DATA_FILE).
  rewrite (get_hyper_index_unfold _ _ _ _ _ _ (indexed_dataset_init _)).
  fold rows. cbv zeta.
  pose proof (while_loop_stop (index_rows rows) page_size [] start) as Hstop.
  pose proof (while_loop_data (index_rows rows) page_size [] start) as Hdata.
  cbv zeta in Hstop. destruct Hstop as (Hle & Hout & Hexit & Hbound).
  destruct (while_loop (index_rows rows) page_size [] start) as [d c].
  cbn [fst snd app length] in *. rewrite index_rows_size in *.
  destruct (decide (Z.of_nat (length rows) ≤ start)) as [Hend|Hin].
  - rewrite live_window_nil in Hdata by lia. rewrite take_nil in Hdata.
    rewrite Hdata, drop_ge, take_nil by lia.
    rewrite !(proj2 (Z.ltb_ge _ _)); [done|lia|].
    destruct Hbound; lia.
  - assert (c ≤ Z.of_nat (length rows)) as Hc by (destruct Hbound; lia).
    replace (Z.of_nat (length rows))
      with (start + Z.of_nat (Z.to_nat (Z.of_nat (length rows) - start)))
      in Hdata at 1 by lia.
    rewrite live_window_index_rows in Hdata by lia.
    rewrite take_take in Hdata.
    replace c with (start + Z.of_nat (Z.to_nat (c - start))) in Hout at 1
      by lia.
    rewrite live_window_index_rows in Hout by lia.
    assert (length d = Z.to_nat (c - start)) as Hlen1.
    { rewrite Hout, length_take, length_drop. lia. }
    assert (d = take (Z.to_nat page_size) (drop (Z.to_nat start) rows))
      as Hd.
    { rewrite Hdata. rewrite Z.sub_0_r.
      destruct (decide (Z.to_nat page_size
                        ≤ Z.to_nat (Z.of_nat (length rows) - start))%nat).
      - by rewrite Nat.min_l by done.
      - rewrite Nat.min_r by lia.
        rewrite !take_ge; [done|rewrite length_drop; lia..]. }
    assert (length d
            = Z.to_nat page_size `min` (length rows - Z.to_nat start))%nat
      as Hlen2.
    { by rewrite Hd, length_take, length_drop. }
    rewrite <-Hd.
    destruct (Z.ltb_spec (start + page_size) (Z.of_nat (length rows)));
      destruct (Z.ltb_spec c (Z.of_nat (length rows)));
      try done; try lia.
    do 4 f_equal. lia.
Qed.

(** X23. Without deletions, [get_hyper_index] pages through the data set
    itself: from a start that is not negative, on a fresh server, the page
    has the rows from [start] on, [page_size] of them at most, and the next
    index is [start + page_size] as long as this is before the end. *)
Theorem get_hyper_index_without_deletions (start page_size : Z) :
  0 ≤ start → 0 ≤ page_size →
  ∃ s' r,
    get_hyper_index DATA_FILE (Some start) page_size init = (s', Ok r)
    ∧ data r = take (Z.to_nat page_size)
                    (drop (Z.to_nat start) (drop 1 DATA_FILE))
    ∧ next_index r
      = if decide (start + page_size < Z.of_nat (length (drop 1 DATA_FILE)))
        then Some (start + page_size) else None.
Proof.
  intros Hstart Hps. eexists _, _.
  split; [by apply get_hyper_index_fresh_page|].
  cbv zeta. cbn [data next_index]. split; [done|].
  destruct (Z.ltb_spec (start + page_size)
              (Z.of_nat (length (drop 1 DATA_FILE))));
    case_decide; try done; lia.
Qed.

(** X24. Without deletions the two ways of paging agree: on fresh servers
    over the same file, [get_hyper_index] from
    [(page - 1) * page_size] returns the rows that [get_page] of
    0x00-pagination/2-hypermedia_pagination.py returns for [page]. *)
Theorem get_hyper_index_agrees_with_get_page (page page_size : Z) :
  0 < page → 0 < page_size →
  ∃ r rows,
    (get_hyper_index DATA_FILE (Some ((page - 1) * page_size)) page_size
       init).2 = Ok r
    ∧ (HypermediaPagination.get_page DATA_FILE (PyInt page) (PyInt page_size)
         HypermediaPagination.init).2 = Ok rows
    ∧ data r = rows.
Proof.
  intros Hp Hn. eexists _, _. split_and!.
  - by rewrite get_hyper_index_fresh_page by nia.
  - by rewrite (PaginationMore.hyper_get_page_value _ _ _ page page_size _
                  {| HypermediaPagination.__dataset :=
                       Some (drop 1 DATA_FILE) |} (drop 1 DATA_FILE)).
  - done.
Qed.

(** X25. The snapshot a fresh server takes maps each position of the data
    set to the row at this position, and has no other entry. *)
Theorem indexed_dataset_snapshot :
  ∃ s' indexed,
    indexed_dataset DATA_FILE init = (s', Ok indexed)
    ∧ size indexed = length (drop 1 DATA_FILE)
    ∧ (∀ i : nat, indexed !! Z.of_nat i = drop 1 DATA_FILE !! i)
    ∧ (∀ k : Z, k < 0 → indexed !! k = None).
Proof.
  eexists _, _. split; [apply indexed_dataset_init|].
  split; [apply index_rows_size|]. split.
  - intros i. rewrite index_rows_lookup, Nat2Z.id. case_decide; [done|].
    symmetry. apply lookup_ge_None. lia.
  - intros k Hk. rewrite index_rows_lookup. apply decide_False. lia.
Qed.

End server.
End DelPaginationMore.

(** ** The properties above on concrete calls *)

Module Runs.
Local Open Scope string_scope.

Section fifo.
Import FIFO FIFOMore.

Lemma put_keeps_other_keys_witness :
  let s : FIFOCache string Z := (put_all 4 overflow_run init).1 in
  let s' := (put 4 (Some "F") (Some 6%Z) s).1 in
  put 4 (Some "F") (Some 6%Z) s = (s', Ok tt)
  ∧ ((stdout s' = stdout s
      ∧ ∀ j, j ≠ "F" → cache_data s' !! j = cache_data s !! j)
     ∨ (∃ k0,
          head (order s) = Some k0
          ∧ stdout s' = (stdout s ++ [k0])%list
          ∧ k0 ≠ "F"
          ∧ cache_data s' !! k0 = None
          ∧ ∀ j, j ≠ "F" → j ≠ k0 →
                 cache_data s' !! j = cache_data s !! j)).
Proof.
  cbv zeta.
  assert (put 4 (Some "F") (Some 6%Z) (put_all 4 overflow_run init).1
          = ((put 4 (Some "F") (Some 6%Z) (put_all 4 overflow_run init).1).1,
             Ok tt)) as Hput by reflexivity.
  split; [exact Hput|].
  exact (put_keeps_other_keys 4 "F" 6%Z _ _ Hput).
Defined.


Lemma put_distinct_keys_is_fifo_witness :
  ((0 < 2)%Z ∧ NoDup overflow_run.*1)
  ∧ ∃ s : FIFOCache string Z,
      put_all 2 overflow_run init = (s, Ok tt)
      ∧ cache_data s = list_to_map (lastn (Z.to_nat 2) overflow_run)
      ∧ stdout s = take (length overflow_run - Z.to_nat 2) overflow_run.*1.
Proof.
  assert (0 < 2)%Z as Hcap by lia.
  assert (NoDup overflow_run.*1) as Hnd.
  { apply (bool_decide_unpack _). vm_compute. exact I. }
  split; [by split|].
  exact (put_distinct_keys_is_fifo 2 overflow_run Hcap Hnd).
Defined.

End fifo.

Local Close Scope string_scope.

Section pages.
Import PaginationMore.

Lemma index_range_agree_witness :
  0 < 3
  ∧ HelperPagination.index_range 3 4 = ((3 - 1) * 4, 3 * 4)
  ∧ SimplePagination.index_range 3 4 = ((3 - 1) * 4, 3 * 4)
  ∧ HypermediaPagination.index_range 3 4 = ((3 - 1) * 4, 3 * 4).
Proof.
  assert (0 < 3) as Hpage by lia.
  split; [exact Hpage|]. exact (index_range_agree 3 4 Hpage).
Defined.

Lemma get_page_length_witness :
  (SimplePagination.dataset ten_rows SimplePagination.init
   = ({| SimplePagination.__dataset := Some (tail ten_rows) |},
      Ok (tail ten_rows))
   ∧ 0 < 4 ∧ 0 < 3)
  ∧ ∃ rows,
      SimplePagination.get_page ten_rows (PyInt 4) (PyInt 3)
        SimplePagination.init
      = ({| SimplePagination.__dataset := Some (tail ten_rows) |}, Ok rows)
      ∧ Z.of_nat (length rows)
        = Z.min 3 (Z.max 0 (Z.of_nat (length (tail ten_rows)) - (4 - 1) * 3)).
Proof.
  assert (0 < 4) as Hp by lia. assert (0 < 3) as Hn by lia.
  split; [by split_and!|].
  exact (get_page_length ten_rows SimplePagination.init _ _ 4 3 eq_refl Hp
           Hn).
Defined.

Lemma get_page_lookup_witness :
  (SimplePagination.dataset ten_rows SimplePagination.init
   = ({| SimplePagination.__dataset := Some (tail ten_rows) |},
      Ok (tail ten_rows))
   ∧ 0 < 2 ∧ 0 < 3)
  ∧ ∃ rows,
      SimplePagination.get_page ten_rows (PyInt 2) (PyInt 3)
        SimplePagination.init
      = ({| SimplePagination.__dataset := Some (tail ten_rows) |}, Ok rows)
      ∧ rows !! 1%nat
        = if decide (Z.of_nat 1 < 3)
          then tail ten_rows !! (Z.to_nat ((2 - 1) * 3) + 1)%nat
          else None.
Proof.
  assert (0 < 2) as Hp by lia. assert (0 < 3) as Hn by lia.
  split; [by split_and!|].
  exact (get_page_lookup ten_rows SimplePagination.init _ _ 2 3 1%nat
           eq_refl Hp Hn).
Defined.

Lemma get_page_agree_witness :
  (0 < 2 ∧ 0 < 3)
  ∧ let slice := take (Z.to_nat 3)
                      (drop (Z.to_nat ((2 - 1) * 3)) (tail ten_rows)) in
    (SimplePagination.get_page ten_rows (PyInt 2) (PyInt 3)
       SimplePagination.init).2 = Ok slice
    ∧ (HypermediaPagination.get_page ten_rows (PyInt 2) (PyInt 3)
         HypermediaPagination.init).2 = Ok slice
    ∧ (HelperPagination.get_page ten_rows (PyInt 2) (PyInt 3)
         HelperPagination.init).2 = Ok slice.
Proof.
  assert (0 < 2) as Hp by lia. assert (0 < 3) as Hn by lia.
  split; [by split|].
  exact (get_page_agree (hd [] ten_rows) (tail ten_rows) 2 3 Hp Hn).
Defined.

Lemma get_page_empty_file_witness :
  (0 < 1 ∧ 0 < 10)
  ∧ SimplePagination.get_page [] (PyInt 1) (PyInt 10) SimplePagination.init
    = (SimplePagination.init, Raise StopIteration)
  ∧ HelperPagination.get_page [] (PyInt 1) (PyInt 10) HelperPagination.init
    = (HelperPagination.init, Raise StopIteration)
  ∧ HypermediaPagination.get_page [] (PyInt 1) (PyInt 10)
      HypermediaPagination.init
    = ({| HypermediaPagination.__dataset := Some [] |}, Ok []).
Proof.
  assert (0 < 1) as Hp by lia. assert (0 < 10) as Hn by lia.
  split; [by split|]. exact (get_page_empty_file 1 10 Hp Hn).
Defined.

Lemma get_page_True_witness :
  (SimplePagination.dataset five_rows SimplePagination.init
   = ({| SimplePagination.__dataset := Some (tail five_rows) |},
      Ok (tail five_rows))
   ∧ 0 < 2)
  ∧ HelperPagination.get_page five_rows (PyBool true) (PyInt 2)
      HelperPagination.init
    = (HelperPagination.init, Raise AssertionError)
  ∧ SimplePagination.get_page five_rows (PyBool true) (PyInt 2)
      SimplePagination.init
    = ({| SimplePagination.__dataset := Some (tail five_rows) |},
       Ok (take (Z.to_nat 2) (tail five_rows))).
Proof.
  assert (0 < 2) as Hn by lia.
  split; [by split|].
  exact (get_page_True five_rows 2 HelperPagination.init
           SimplePagination.init _ _ eq_refl Hn).
Defined.


Lemma get_hyper_on_loaded_server_witness :
  let loaded := {| HypermediaPagination.__dataset := Some (tail ten_rows) |} in
  HypermediaPagination.__dataset loaded = Some (tail ten_rows)
  ∧ HypermediaPagination.get_hyper ten_rows (PyInt 2) (PyInt 3) loaded
    = HypermediaPagination.get_hyper five_rows (PyInt 2) (PyInt 3) loaded
  ∧ (HypermediaPagination.get_hyper ten_rows (PyInt 2) (PyInt 3) loaded).1
    = loaded.
Proof.
  cbv zeta. split; [reflexivity|].
  exact (get_hyper_on_loaded_server ten_rows five_rows (PyInt 2) (PyInt 3)
           {| HypermediaPagination.__dataset := Some (tail ten_rows) |} _
           eq_refl).
Defined.

Lemma helper_get_hyper_fields_witness :
  let loaded := {| HelperPagination.__dataset := Some (tail ten_rows) |} in
  (HelperPagination.dataset ten_rows HelperPagination.init
   = (loaded, Ok (tail ten_rows))
   ∧ 0 < 4 ∧ 0 < 3)
  ∧ ∃ r,
      HelperPagination.get_hyper ten_rows (PyInt 4) (PyInt 3)
        HelperPagination.init = (loaded, Ok r)
      ∧ HelperPagination.data r
        = take (Z.to_nat 3) (drop (Z.to_nat ((4 - 1) * 3)) (tail ten_rows))
      ∧ HelperPagination.page_size r
        = Z.of_nat (length (HelperPagination.data r))
      ∧ HelperPagination.page_size r ≤ 3
      ∧ HelperPagination.next_page r
        = (if decide (4 < HelperPagination.total_pages r)
           then Some (4 + 1) else None)
      ∧ HelperPagination.prev_page r
        = (if decide (4 = 1) then None else Some (4 - 1)).
Proof.
  cbv zeta. assert (0 < 4) as Hp by lia. assert (0 < 3) as Hn by lia.
  split; [by split_and!|].
  exact (helper_get_hyper_fields ten_rows HelperPagination.init _ _ 4 3
           eq_refl Hp Hn).
Defined.

Lemma invalid_arguments_fail_fast_witness :
  positive_int (PyInt 1) && positive_int (PyStr "10") = false
  ∧ SimplePagination.get_page ten_rows (PyInt 1) (PyStr "10")
      SimplePagination.init
    = (SimplePagination.init, Raise AssertionError)
  ∧ HypermediaPagination.get_page ten_rows (PyInt 1) (PyStr "10")
      HypermediaPagination.init
    = (HypermediaPagination.init, Raise AssertionError)
  ∧ HypermediaPagination.get_hyper ten_rows (PyInt 1) (PyStr "10")
      HypermediaPagination.init
    = (HypermediaPagination.init, Raise AssertionError).
Proof.
  split; [reflexivity|].
  exact (invalid_arguments_fail_fast ten_rows (PyInt 1) (PyStr "10")
           SimplePagination.init HypermediaPagination.init eq_refl).
Defined.


End pages.

Section del_pages.
Import DelPagination DelPaginationMore.

Lemma get_hyper_index_beyond_end_witness :
  (indexed_dataset ten_rows gapped_server
   = (gapped_server, Ok gapped_snapshot)
   ∧ Z.of_nat (size gapped_snapshot) ≤ 8)
  ∧ get_hyper_index ten_rows (Some 8) 3 gapped_server
    = (gapped_server,
       Ok {| index := Some 8; next_index := None;
             page_size := 0; data := [] |}).
Proof.
  assert (Z.of_nat (size gapped_snapshot) ≤ 8) as Hend by (by vm_compute).
  split; [by split|].
  exact (get_hyper_index_beyond_end ten_rows 8 3 gapped_server gapped_server
           gapped_snapshot eq_refl Hend).
Defined.

(** The first page of three records of the server with two deleted
    records. *)
Lemma first_gapped_page :
  get_hyper_index ten_rows (Some 0) 3 gapped_server
  = (gapped_server,
     Ok {| index := Some 0; next_index := Some 4; page_size := 3;
           data := [["2016"; "Olivia"]; ["2016"; "Chloe"];
                    ["2016"; "Emma"]]%string |}).
Proof. reflexivity. Qed.

Lemma get_hyper_index_progress_witness :
  (get_hyper_index ten_rows (Some 0) 3 gapped_server
   = (gapped_server,
      Ok {| index := Some 0; next_index := Some 4; page_size := 3;
            data := [["2016"; "Olivia"]; ["2016"; "Chloe"];
                     ["2016"; "Emma"]]%string |})
   ∧ 0 < 3)
  ∧ default 0 (Some 0) < 4.
Proof.
  assert (0 < 3) as Hps by lia.
  split; [split; [exact first_gapped_page|exact Hps]|].
  exact (get_hyper_index_progress ten_rows (Some 0) 3 _ _ _ 4
           first_gapped_page eq_refl Hps).
Defined.

Lemma get_hyper_index_full_page_witness :
  (get_hyper_index ten_rows (Some 0) 3 gapped_server
   = (gapped_server,
      Ok {| index := Some 0; next_index := Some 4; page_size := 3;
            data := [["2016"; "Olivia"]; ["2016"; "Chloe"];
                     ["2016"; "Emma"]]%string |})
   ∧ 0 ≤ 3)
  ∧ DelPagination.page_size
      {| index := Some 0; next_index := Some 4; page_size := 3;
         data := [["2016"; "Olivia"]; ["2016"; "Chloe"];
                  ["2016"; "Emma"]]%string |} = 3.
Proof.
  assert (0 ≤ 3) as Hps by lia.
  split; [split; [exact first_gapped_page|exact Hps]|].
  exact (get_hyper_index_full_page ten_rows (Some 0) 3 _ _ _ 4
           first_gapped_page eq_refl Hps).
Defined.

Lemma get_hyper_index_chain_witness :
  let r1 := {| index := Some 0; next_index := Some 4; page_size := 3;
               data := [["2016"; "Olivia"]; ["2016"; "Chloe"];
                        ["2016"; "Emma"]]%string |} in
  (get_hyper_index ten_rows (Some 0) 3 gapped_server = (gapped_server, Ok r1)
   ∧ 0 ≤ 3 ∧ 0 ≤ 2)
  ∧ ∃ r2,
      get_hyper_index ten_rows (Some 4) 2 gapped_server
      = (gapped_server, Ok r2)
      ∧ get_hyper_index ten_rows (Some 0) (3 + 2) gapped_server
        = (gapped_server,
           Ok {| index := Some 0;
                 next_index := next_index r2;
                 page_size := DelPagination.page_size r1
                              + DelPagination.page_size r2;
                 data := data r1 ++ data r2 |}).
Proof.
  cbv zeta. assert (0 ≤ 3) as Ha by lia. assert (0 ≤ 2) as Hb by lia.
  split; [split; [exact first_gapped_page|by split]|].
  exact (get_hyper_index_chain ten_rows (Some 0) 3 2 _ _ _ 4
           first_gapped_page eq_refl Ha Hb).
Defined.

Lemma get_hyper_index_without_deletions_witness :
  (0 ≤ 8 ∧ 0 ≤ 5)
  ∧ ∃ s' r,
      get_hyper_index ten_rows (Some 8) 5 init = (s', Ok r)
      ∧ data r = take (Z.to_nat 5) (drop (Z.to_nat 8) (drop 1 ten_rows))
      ∧ next_index r
        = if decide (8 + 5 < Z.of_nat (length (drop 1 ten_rows)))
          then Some (8 + 5) else None.
Proof.
  assert (0 ≤ 8) as Hstart by lia. assert (0 ≤ 5) as Hps by lia.
  split; [by split|].
  exact (get_hyper_index_without_deletions ten_rows 8 5 Hstart Hps).
Defined.

Lemma get_hyper_index_agrees_with_get_page_witness :
  (0 < 2 ∧ 0 < 3)
  ∧ ∃ r rows,
      (get_hyper_index ten_rows (Some ((2 - 1) * 3)) 3 init).2 = Ok r
      ∧ (HypermediaPagination.get_page ten_rows (PyInt 2) (PyInt 3)
           HypermediaPagination.init).2 = Ok rows
      ∧ data r = rows.
Proof.
  assert (0 < 2) as Hp by lia. assert (0 < 3) as Hn by lia.
  split; [by split|].
  exact (get_hyper_index_agrees_with_get_page ten_rows 2 3 Hp Hn).
Defined.

End del_pages.
End Runs.
